(** * sphinx-a4doc: the railroad diagram directives and their settings

    A shallow embedding of [sphinx_a4doc/diagram_directive.py] and of the
    [DiagramSettings] dataclass of [sphinx_a4doc/settings.py].

    Python code that raises is embedded in a state-and-exception monad:
    a computation receives the object it may mutate and gives back either a
    value or the exception it raised, together with the object as it is
    left.  Collaborators whose code lives elsewhere (the [a4] Sphinx domain,
    the grammar model cache, the diagram engine) are section variables. *)

From Stdlib Require Import String Ascii List ZArith Lia DecimalString PrimFloat.
From stdpp Require Import base option gmap strings.
Import ListNotations.
Local Open Scope string_scope.

(** ** Exceptions and the monad *)

(** The exception classes the two modules name or meet.  All of them derive
    from Python's [Exception]; interpreter exits and keyboard interrupts
    are outside the model. *)
Inductive exn : Type :=
| NoUri
| AssertionError
| KeyError (key : string)
| RuntimeError (msg : string)
| ExtensionError (msg : string)
| FrozenInstanceError (msg : string)
| OtherException (cls msg : string).

(** [str(e)] for an exception built from one message argument; for a
    [KeyError] the [repr] of a key without quotes or escapes in it. *)
Definition exn_str (e : exn) : string :=
  match e with
  | NoUri => EmptyString
  | AssertionError => EmptyString
  | KeyError k => "'" ++ k ++ "'"
  | RuntimeError m => m
  | ExtensionError m => m
  | FrozenInstanceError m => m
  | OtherException _ m => m
  end.

Definition is_NoUri (e : exn) : bool :=
  match e with NoUri => true | _ => false end.

Inductive result (A : Type) : Type :=
| Ok (a : A)
| Raise (e : exn).
Arguments Ok {A} a.
Arguments Raise {A} e.

Definition is_Ok {A} (r : result A) : bool :=
  match r with Ok _ => true | Raise _ => false end.

(** A statement sequence over a mutable object of type [S]: what was written
    to the object before an exception stays written. *)
Definition M (S A : Type) : Type := S -> result A * S.

Definition ret {S A} (a : A) : M S A := fun s => (Ok a, s).
Definition raise {S A} (e : exn) : M S A := fun s => (Raise e, s).
Definition bind {S A B} (c : M S A) (k : A -> M S B) : M S B :=
  fun s => match c s with
           | (Ok a, s') => k a s'
           | (Raise e, s') => (Raise e, s')
           end.
Definition gets {S A} (f : S -> A) : M S A := fun s => (Ok (f s), s).
Definition modify {S} (f : S -> S) : M S unit := fun s => (Ok tt, f s).
Definition lift {S A} (r : result A) : M S A := fun s => (r, s).

(** [try: c except cls as e: h e], where [catches] tells the instances of
    [cls]. *)
Definition try_except {S A} (c : M S A) (catches : exn -> bool)
    (h : exn -> M S A) : M S A :=
  fun s => match c s with
           | (Ok a, s') => (Ok a, s')
           | (Raise e, s') => if catches e then h e s' else (Raise e, s')
           end.

(** [try: c except cls as e: h e else: k], the [else] suite running
    outside the handler's reach. *)
Definition try_except_else {S A B} (c : M S A) (catches : exn -> bool)
    (h : exn -> M S B) (k : A -> M S B) : M S B :=
  fun s => match c s with
           | (Ok a, s') => k a s'
           | (Raise e, s') => if catches e then h e s' else (Raise e, s')
           end.

(** [except Exception]: every exception of the model is an instance. *)
Definition is_Exception (e : exn) : bool := true.

(** [assert x is not None] *)
Definition assert_not_None {S A} (x : option A) : M S A :=
  match x with
  | Some a => ret a
  | None => raise AssertionError
  end.

Notation "'let!' x ':=' c 'in' k" := (bind c (fun x => k))
  (at level 10, x name, c at level 100, k at level 200).

(** ** Strings *)

Definition newline : string := String (ascii_of_nat 10) EmptyString.
Definition dquote : string := String (ascii_of_nat 34) EmptyString.

(** [sep.join(parts)] *)
Definition join (sep : string) (parts : list string) : string :=
  String.concat sep parts.

(** [s.rpartition('.')] when a dot occurs in [s]: the text before the last
    dot and the text after it. *)
Fixpoint rpartition_dot (s : string) : option (string * string) :=
  match s with
  | EmptyString => None
  | String c r =>
      match rpartition_dot r with
      | Some (p, q) => Some (String c p, q)
      | None => if Ascii.eqb c "." then Some (EmptyString, r) else None
      end
  end.

(** [s.rsplit('.', 1)] *)
Definition rsplit_dot_1 (s : string) : list string :=
  match rpartition_dot s with
  | Some (p, q) => [p; q]
  | None => [s]
  end.

(** [l[-1]] on a list of strings that is not empty. *)
Definition last_item (l : list string) : string := List.last l EmptyString.

(** [str(n)] for an integer. *)
Definition str_int (n : Z) : string := NilZero.string_of_int (Z.to_int n).

(** [f'{x}'] for a value that may be [None]. *)
Definition format_option {A} (f : A -> string) (x : option A) : string :=
  match x with
  | Some a => f a
  | None => "None"
  end.

(** [repr(s)] for a string without quotes or escapes in it. *)
Definition repr_str (s : string) : string := "'" ++ s ++ "'".

(** ** docutils nodes *)

(** The node classes the resolver tells apart, and the rest by name:
    [TextElement] subclasses join the text of their children with the empty
    string, other elements with a blank line. *)
Inductive element_class : Type :=
| reference
| literal
| text_element (name : string)
| element (name : string).

#[warnings="-register-all"]
Inductive node : Type :=
| Text (data : string)
| Element (cls : element_class) (attributes : gmap string string)
          (children : list node).

Definition child_text_separator (c : element_class) : string :=
  match c with
  | element _ => newline ++ newline
  | _ => EmptyString
  end.

(** The null character, with which docutils marks a backslash escape in
    the text of a node. *)
Definition NUL : ascii := Ascii.zero.

(** [''.join(text.split(NUL + c))]: every null directly followed by [c]
    goes, with that [c]. *)
Fixpoint remove_nul_before (c : ascii) (s : string) : string :=
  match s with
  | EmptyString => EmptyString
  | String a r =>
      match r with
      | String b r' =>
          if Ascii.eqb a NUL && Ascii.eqb b c
          then remove_nul_before c r'
          else String a (remove_nul_before c r)
      | EmptyString => String a EmptyString
      end
  end.

(** [''.join(text.split(NUL))] *)
Fixpoint remove_nul (s : string) : string :=
  match s with
  | EmptyString => EmptyString
  | String a r => if Ascii.eqb a NUL then remove_nul r
                  else String a (remove_nul r)
  end.

(** [docutils.utils.unescape(text)]: the three separators are taken out one
    after the other, a null before a space, a null before a newline, a
    null. *)
Definition unescape (text : string) : string :=
  remove_nul
    (remove_nul_before (ascii_of_nat 10)
       (remove_nul_before (ascii_of_nat 32) text)).

(** [n.astext()]: a [Text] gives its data unescaped, an element the texts of
    its children joined by the separator of its class. *)
Fixpoint astext (n : node) : string :=
  match n with
  | Text data => unescape data
  | Element c _ children => join (child_text_separator c) (map astext children)
  end.

Definition node_attributes (n : node) : gmap string string :=
  match n with
  | Text _ => ∅
  | Element _ attrs _ => attrs
  end.

(** [isinstance(n, docutils.nodes.reference)] and the like. *)
Definition is_reference (n : node) : bool :=
  match n with Element reference _ _ => true | _ => false end.
Definition is_literal (n : node) : bool :=
  match n with Element literal _ _ => true | _ => false end.

(** [n.findall(cond, include_self=True)]: the node itself, then its
    descendants, in document order. *)
Fixpoint findall (cond : node -> bool) (n : node) : list node :=
  (if cond n then [n] else []) ++
  match n with
  | Text _ => []
  | Element _ _ children => flat_map (findall cond) children
  end.

(** [n.next_node(cond, include_self=True)] *)
Definition next_node (cond : node -> bool) (n : node) : option node :=
  head (findall cond n).

(** [docutils.nodes.literal('', text)]: a [TextElement] gets a [Text] child
    unless the text is empty. *)
Definition new_literal (text : string) : node :=
  Element literal ∅ (if String.eqb text EmptyString then [] else [Text text]).

(** [sphinx.addnodes.pending_xref]: the keyword attributes given at
    construction, and the items stored afterwards. *)
Record pending_xref : Type := {
  reftype : string;
  refdomain : string;
  refexplicit : bool;
  xref_items : gmap string string
}.

Definition xref_setitem (k v : string) (x : pending_xref) : pending_xref :=
  {| reftype := reftype x; refdomain := refdomain x;
     refexplicit := refexplicit x;
     xref_items := <[k := v]> (xref_items x) |}.

(** ** Settings ([settings.py]) *)

Inductive InternalAlignment : Type :=
| CENTER
| LEFT
| RIGHT
| AUTO_LEFT
| AUTO_RIGHT.

Inductive EndClass : Type :=
| SIMPLE
| COMPLEX.

(** The frozen dataclass [DiagramSettings], field by field in the order of
    the class body. *)
Record DiagramSettings : Type := {
  padding : Z * Z * Z * Z;
  vertical_separation : Z;
  horizontal_separation : Z;
  arc_radius : Z;
  diagram_class : string;
  translate_half_pixel : bool;
  internal_alignment : InternalAlignment;
  character_advance : float;
  end_class : EndClass;
  max_width : Z
}.

(** [DiagramSettings()], every field at its default; [8.4] is read as the
    nearest binary64 number, as Python reads it. *)
#[warnings="-inexact-float"]
Definition DiagramSettings_default : DiagramSettings := {|
  padding := (1, 1, 1, 1)%Z;
  vertical_separation := 8;
  horizontal_separation := 10;
  arc_radius := 10;
  diagram_class := "railroad-diagram";
  translate_half_pixel := false;
  internal_alignment := AUTO_LEFT;
  character_advance := 8.4%float;
  end_class := SIMPLE;
  max_width := 500
|}.

(** The values a field of the dataclass holds. *)
Inductive field_value : Type :=
| tuple4_int (a b c d : Z)
| int_value (n : Z)
| str_value (s : string)
| bool_value (b : bool)
| float_value (x : float)
| InternalAlignment_value (a : InternalAlignment)
| EndClass_value (e : EndClass).

(** The annotation of a field. *)
Inductive field_type : Type :=
| Tuple_int_4
| int_type
| str_type
| bool_type
| float_type
| InternalAlignment_type
| EndClass_type.

Definition type_of_value (v : field_value) : field_type :=
  match v with
  | tuple4_int _ _ _ _ => Tuple_int_4
  | int_value _ => int_type
  | str_value _ => str_type
  | bool_value _ => bool_type
  | float_value _ => float_type
  | InternalAlignment_value _ => InternalAlignment_type
  | EndClass_value _ => EndClass_type
  end.

(** [getattr(self, name)] on the fields: [None] stands for the
    [AttributeError] of a name that is no field. *)
Definition DiagramSettings_getattr (self : DiagramSettings) (name : string)
    : option field_value :=
  if String.eqb name "padding" then
    let '(t, r, b, l) := padding self in Some (tuple4_int t r b l)
  else if String.eqb name "vertical_separation" then
    Some (int_value (vertical_separation self))
  else if String.eqb name "horizontal_separation" then
    Some (int_value (horizontal_separation self))
  else if String.eqb name "arc_radius" then
    Some (int_value (arc_radius self))
  else if String.eqb name "diagram_class" then
    Some (str_value (diagram_class self))
  else if String.eqb name "translate_half_pixel" then
    Some (bool_value (translate_half_pixel self))
  else if String.eqb name "internal_alignment" then
    Some (InternalAlignment_value (internal_alignment self))
  else if String.eqb name "character_advance" then
    Some (float_value (character_advance self))
  else if String.eqb name "end_class" then
    Some (EndClass_value (end_class self))
  else if String.eqb name "max_width" then
    Some (int_value (max_width self))
  else None.

(** *** The dataclass and its instances

    What [dataclass(frozen=True)] makes of the class body, at the level of
    Python objects: a class with its fields, instances with a [__dict__],
    and the [__init__], [__setattr__] and [__delattr__] the decorator
    generates. *)

(** A field of a class body: name, annotation, default. *)
Record field_decl : Type := {
  field_name : string;
  field_annotation : field_type;
  field_default : field_value
}.

(** A class as [dataclass(frozen=...)] leaves it. *)
Record dataclass : Type := {
  dc_name : string;
  dc_frozen : bool;
  dc_fields : list field_decl
}.

(** An instance: its class and its [__dict__]. *)
Record instance : Type := {
  ob_class : string;
  ob_dict : gmap string field_value
}.

(** The class body of [DiagramSettings] under its decorator. *)
#[warnings="-inexact-float"]
Definition DiagramSettings_class : dataclass := {|
  dc_name := "DiagramSettings";
  dc_frozen := true;
  dc_fields := [
    {| field_name := "padding"; field_annotation := Tuple_int_4;
       field_default := tuple4_int 1 1 1 1 |};
    {| field_name := "vertical_separation"; field_annotation := int_type;
       field_default := int_value 8 |};
    {| field_name := "horizontal_separation"; field_annotation := int_type;
       field_default := int_value 10 |};
    {| field_name := "arc_radius"; field_annotation := int_type;
       field_default := int_value 10 |};
    {| field_name := "diagram_class"; field_annotation := str_type;
       field_default := str_value "railroad-diagram" |};
    {| field_name := "translate_half_pixel"; field_annotation := bool_type;
       field_default := bool_value false |};
    {| field_name := "internal_alignment";
       field_annotation := InternalAlignment_type;
       field_default := InternalAlignment_value AUTO_LEFT |};
    {| field_name := "character_advance"; field_annotation := float_type;
       field_default := float_value 8.4%float |};
    {| field_name := "end_class"; field_annotation := EndClass_type;
       field_default := EndClass_value SIMPLE |};
    {| field_name := "max_width"; field_annotation := int_type;
       field_default := int_value 500 |}
  ]
|}.

(** [name in fields] *)
Definition is_field (cls : dataclass) (name : string) : bool :=
  existsb (fun f => String.eqb (field_name f) name) (dc_fields cls).

(** The generated [__init__], called with keyword arguments: a keyword
    that names no field is a [TypeError]; every field gets its argument or
    its default. *)
Definition dataclass_init (cls : dataclass)
    (kwargs : gmap string field_value) : result instance :=
  match List.find (fun k => negb (is_field cls k))
          (map fst (map_to_list kwargs)) with
  | Some k =>
      Raise (OtherException "TypeError"
               ("__init__() got an unexpected keyword argument "
                ++ repr_str k))
  | None =>
      Ok {| ob_class := dc_name cls;
            ob_dict :=
              fold_right
                (fun f d =>
                   <[field_name f :=
                       default (field_default f) (kwargs !! field_name f)]> d)
                ∅ (dc_fields cls) |}
  end.

(** [object.__setattr__] and [object.__delattr__] *)
Definition object_setattr (name : string) (value : field_value)
    : M instance unit :=
  modify (fun o => {| ob_class := ob_class o;
                      ob_dict := <[name := value]> (ob_dict o) |}).

Definition object_delattr (name : string) : M instance unit :=
  fun o =>
    match ob_dict o !! name with
    | Some _ => (Ok tt, {| ob_class := ob_class o;
                           ob_dict := delete name (ob_dict o) |})
    | None => (Raise (OtherException "AttributeError" name), o)
    end.

(** The guard of the generated methods:
    [type(self) is cls or name in fields]. *)
Definition frozen_condition (cls : dataclass) (name : string)
    (self : instance) : bool :=
  String.eqb (ob_class self) (dc_name cls) || is_field cls name.

(** [__setattr__] and [__delattr__]: generated for a frozen class, and
    those of [object] otherwise. *)
Definition dataclass_setattr (cls : dataclass) (name : string)
    (value : field_value) : M instance unit :=
  if dc_frozen cls then
    let! frozen := gets (frozen_condition cls name) in
    if (frozen : bool)
    then raise (FrozenInstanceError
                  ("cannot assign to field " ++ repr_str name))
    else object_setattr name value
  else object_setattr name value.

Definition dataclass_delattr (cls : dataclass) (name : string)
    : M instance unit :=
  if dc_frozen cls then
    let! frozen := gets (frozen_condition cls name) in
    if (frozen : bool)
    then raise (FrozenInstanceError
                  ("cannot delete field " ++ repr_str name))
    else object_delattr name
  else object_delattr name.

(** The attribute operations a program can try on an instance, and a run
    of them, each in a [try] of its own: the outcomes, and the instance as
    it is left. *)
Inductive attr_op : Type :=
| op_setattr (name : string) (value : field_value)
| op_delattr (name : string).

Definition attempt (cls : dataclass) (op : attr_op) : M instance unit :=
  match op with
  | op_setattr name value => dataclass_setattr cls name value
  | op_delattr name => dataclass_delattr cls name
  end.

Fixpoint attempt_all (cls : dataclass) (ops : list attr_op)
    (self : instance) : list (result unit) * instance :=
  match ops with
  | [] => ([], self)
  | op :: rest =>
      let '(r, self') := attempt cls op self in
      let '(rs, self'') := attempt_all cls rest self' in
      (r :: rs, self'')
  end.

(** What an attempt on a frozen instance raises. *)
Definition frozen_error (op : attr_op) : exn :=
  match op with
  | op_setattr name _ =>
      FrozenInstanceError ("cannot assign to field " ++ repr_str name)
  | op_delattr name =>
      FrozenInstanceError ("cannot delete field " ++ repr_str name)
  end.

(** The instance that holds the fields of a settings record. *)
Definition DiagramSettings_instance (s : DiagramSettings) : instance :=
  let '(t, r, b, l) := padding s in
  {| ob_class := "DiagramSettings";
     ob_dict :=
       <["padding" := tuple4_int t r b l]>
       (<["vertical_separation" := int_value (vertical_separation s)]>
       (<["horizontal_separation" := int_value (horizontal_separation s)]>
       (<["arc_radius" := int_value (arc_radius s)]>
       (<["diagram_class" := str_value (diagram_class s)]>
       (<["translate_half_pixel" := bool_value (translate_half_pixel s)]>
       (<["internal_alignment" :=
            InternalAlignment_value (internal_alignment s)]>
       (<["character_advance" := float_value (character_advance s)]>
       (<["end_class" := EndClass_value (end_class s)]>
       (<["max_width" := int_value (max_width s)]> ∅))))))))) |}.

(** The members of the two enumerations, in definition order. *)
Definition InternalAlignment_members : list InternalAlignment :=
  [CENTER; LEFT; RIGHT; AUTO_LEFT; AUTO_RIGHT].
Definition EndClass_members : list EndClass := [SIMPLE; COMPLEX].

(** ** [DomainResolver] *)

Section Resolver.

(** The Sphinx side: builders, build environments and what the resolver
    reads from them. *)
Variables Builder BuildEnvironment : Type.

(** A Sphinx domain, by the one method the resolver calls:
    [resolve_xref(env, fromdocname, builder, typ, target, node, contnode)]
    gives a node, [None], or raises. *)
Record Domain : Type := {
  resolve_xref :
    BuildEnvironment -> string -> Builder -> string -> string ->
    pending_xref -> node -> result (option node)
}.

Variable builder_env : Builder -> BuildEnvironment.
Variable current_docname : Builder -> string.
Variable get_domain : BuildEnvironment -> string -> result Domain.

Record DomainResolver : Type := {
  builder : Builder;
  grammar : string
}.

(** [DomainResolver.resolve(self, text, href, title_is_weak)], with
    [self] as the mutable object. *)
Definition resolve (text : string) (href : option string)
    (title_is_weak : bool) : M DomainResolver (string * option string) :=
  let title := text in
  let '(target, explicit_title) :=
    match href with
    | None => (text, false)
    | Some h => (h, negb title_is_weak)
    end in
  let! builder := gets builder in
  let env := builder_env builder in
  let! domain := lift (get_domain env "a4") in
  let docname := current_docname builder in
  let xref := {| reftype := "rule"; refdomain := "a4";
                 refexplicit := explicit_title; xref_items := ∅ |} in
  let! grammar := gets grammar in
  let xref := xref_setitem "a4:grammar" grammar xref in
  let! node :=
    try_except
      (lift (resolve_xref domain env docname builder "rule" target xref
               (new_literal
                  (if title_is_weak
                   then last_item (rsplit_dot_1 target)
                   else title))))
      is_NoUri
      (fun _ => ret None) in
  match node with
  | None => ret (title, None)
  | Some node =>
      let! reference := assert_not_None (next_node is_reference node) in
      let! literal := assert_not_None (next_node is_literal node) in
      match node_attributes reference !! "refuri" with
      | Some refuri => ret (astext literal, Some refuri)
      | None =>
          match node_attributes reference !! "refid" with
          | Some refid => ret (astext literal, Some ("#" ++ refid))
          | None => raise (KeyError "refid")
          end
      end
  end.

(** The call [resolve] makes to the domain, and its answer: the target is
    the href when there is one and the text otherwise, the pending node
    carries [refexplicit] and the grammar, the content node is a literal. *)
Definition xref_answer (domain : Domain) (self : DomainResolver)
    (text : string) (href : option string) (title_is_weak : bool)
    : result (option node) :=
  let target := match href with None => text | Some h => h end in
  let explicit_title :=
    match href with None => false | Some _ => negb title_is_weak end in
  resolve_xref domain (builder_env (builder self))
    (current_docname (builder self)) (builder self) "rule" target
    (xref_setitem "a4:grammar" (grammar self)
       {| reftype := "rule"; refdomain := "a4";
          refexplicit := explicit_title; xref_items := ∅ |})
    (new_literal
       (if title_is_weak then last_item (rsplit_dot_1 target) else text)).

(** Resolution fails: the domain finds nothing or raises [NoUri]. *)
Definition resolution_fails (r : result (option node)) : Prop :=
  r = Ok None \/ r = Raise NoUri.

(** A domain that keeps the literal it is given as the content of an
    explicit reference, as [sphinx.util.nodes.make_refnode] does with the
    child it is passed. *)
Definition keeps_explicit_title (domain : Domain) : Prop :=
  forall env docname b typ target xref contnode n,
    refexplicit xref = true ->
    is_literal contnode = true ->
    resolve_xref domain env docname b typ target xref contnode = Ok (Some n) ->
    next_node is_literal n = Some contnode.

End Resolver.

Arguments resolve_xref {Builder BuildEnvironment} d _ _ _ _ _ _ _.
Arguments Build_Domain {Builder BuildEnvironment} _.
Arguments builder {Builder} d.
Arguments grammar {Builder} d.
Arguments Build_DomainResolver {Builder} _ _.
Arguments resolve {Builder BuildEnvironment} builder_env current_docname
  get_domain text href title_is_weak _.
Arguments xref_answer {Builder BuildEnvironment} builder_env current_docname
  domain self text href title_is_weak.
Arguments keeps_explicit_title {Builder BuildEnvironment} domain.

(** ** [RailroadDiagramNode] *)

Section DiagramNode.

Variables Builder Description Item : Type.

(** The diagram engine of [contrib.railroad_diagrams]: a [Diagram] is built
    from the settings and the resolver; [load] turns a description into
    items and [render] turns items into SVG text.  Either may raise. *)
Variable Diagram_load :
  DiagramSettings -> DomainResolver Builder -> Description -> result Item.
Variable Diagram_render :
  DiagramSettings -> DomainResolver Builder -> Item -> result string.

(** The node the directives emit: its three attributes and the position
    docutils keeps on every node. *)
Record RailroadDiagramNode : Type := {
  diagram : Description;
  options : DiagramSettings;
  node_grammar : string;
  source : option string;
  line : option Z
}.

(** [RailroadDiagramNode(diagram, options, grammar)]: a fresh element has
    no position yet. *)
Definition new_RailroadDiagramNode (diagram : Description)
    (options : DiagramSettings) (grammar : string) : RailroadDiagramNode :=
  {| diagram := diagram; options := options; node_grammar := grammar;
     source := None; line := None |}.

(** What a visit can write to: the translator's [body] and the records of
    the module's logger ([logger.exception] logs at level ERROR). *)
Record HTMLTranslator : Type := {
  translator_builder : Builder;
  body : list string;
  logged : list string
}.

Definition body_append (x : string) : M HTMLTranslator unit :=
  modify (fun t => {| translator_builder := translator_builder t;
                      body := (body t ++ [x])%list;
                      logged := logged t |}).

Definition logger_exception (msg : string) : M HTMLTranslator unit :=
  modify (fun t => {| translator_builder := translator_builder t;
                      body := body t;
                      logged := (logged t ++ [msg])%list |}).

(** The message of the handler:
    [f'{node.source}:{node.line}: WARNING: {e}'] *)
Definition warning_message (node : RailroadDiagramNode) (e : exn) : string :=
  format_option id (source node) ++ ":" ++ format_option str_int (line node)
  ++ ": WARNING: " ++ exn_str e.

(** ['<p class="railroad-diagram-container">'] *)
Definition container_open : string :=
  "<p class=" ++ dquote ++ "railroad-diagram-container" ++ dquote ++ ">".

(** [RailroadDiagramNode.visit_node_html(self, node)] *)
Definition visit_node_html (node : RailroadDiagramNode)
    : M HTMLTranslator unit :=
  let! builder := gets translator_builder in
  let resolver := {| builder := builder; grammar := node_grammar node |} in
  let dia := (options node, resolver) in
  try_except_else
    (let! data := lift (Diagram_load (fst dia) (snd dia) (diagram node)) in
     let! svg := lift (Diagram_render (fst dia) (snd dia) data) in
     ret svg)
    is_Exception
    (fun e => logger_exception (warning_message node e))
    (fun svg =>
       let! _ := body_append container_open in
       let! _ := body_append svg in
       body_append "</p>").

(** [depart_node] *)
Definition depart_node (node : RailroadDiagramNode) : M HTMLTranslator unit :=
  ret tt.

(** Visiting the diagram nodes of a document one after the other, as the
    writer walks them. *)
Fixpoint visit_all (nodes : list RailroadDiagramNode) : M HTMLTranslator unit :=
  match nodes with
  | [] => ret tt
  | node :: rest =>
      let! _ := visit_node_html node in
      let! _ := depart_node node in
      visit_all rest
  end.

End DiagramNode.

(** ** The directives *)

(** The calls a directive makes to its collaborators, kept in the order
    they are made: this is the object a directive run writes to. *)
Inductive call : Type :=
| call_safe_load (text : string)
| call_from_text (content source : string) (offset : Z)
| call_lookup (name : string)
| call_visit
| call_reporter_error (message : string) (line : Z).

Definition record_call (c : call) : M (list call) unit :=
  modify (fun calls => (calls ++ [c])%list).

Inductive directive_class : Type :=
| RailroadDiagram
| LexerRuleDiagram
| ParserRuleDiagram.

(** What [run] and [get_content] read from the directive object. *)
Record Directive : Type := {
  directive_cls : directive_class;
  content : list string;
  lineno : Z;
  content_offset : Z;
  reporter_source : string;
  settings : DiagramSettings;
  ref_context : gmap string string
}.

(** The two rule directives as their documentation has them: the name of
    the root rule a directive wraps its body in, and the grammar text it
    hands to the model cache. *)
Definition rule_directive (self : Directive) (name text : string) : Prop :=
  (directive_cls self = LexerRuleDiagram /\ name = "ROOT" /\
   text = "grammar X; ROOT : " ++ join newline (content self) ++ " ;") \/
  (directive_cls self = ParserRuleDiagram /\ name = "root" /\
   text = "grammar X; root : " ++ join newline (content self) ++ " ;").

Section Directives.

Variables Description Model Rule Content : Type.

(** [yaml.safe_load], the grammar model ([ModelCache.instance().from_text],
    [model.lookup], [rule.content]) and [Renderer().visit]. *)
Variable safe_load : string -> result Description.
Variable from_text : string -> string * Z -> result Model.
Variable lookup : Model -> string -> option Rule.
Variable rule_content : Rule -> option Content.
Variable visit : Content -> result Description.

(** The nodes [run] returns: the [system_message] of the reporter or the
    diagram node. *)
Inductive output_node : Type :=
| system_message (level : Z) (message : string) (line : Z)
| railroad_diagram (n : RailroadDiagramNode Description).

Definition ERROR_LEVEL : Z := 3.

(** [self.state_machine.reporter.error(message, line=line)] *)
Definition reporter_error (message : string) (line : Z)
    : M (list call) output_node :=
  let! _ := record_call (call_reporter_error message line) in
  ret (system_message ERROR_LEVEL message line).

Definition yaml_safe_load (text : string) : M (list call) Description :=
  let! _ := record_call (call_safe_load text) in
  lift (safe_load text).

Definition ModelCache_from_text (text : string) (origin : string * Z)
    : M (list call) Model :=
  let! _ := record_call (call_from_text text (fst origin) (snd origin)) in
  lift (from_text text origin).

Definition Model_lookup (model : Model) (name : string)
    : M (list call) (option Rule) :=
  let! _ := record_call (call_lookup name) in
  ret (lookup model name).

Definition Renderer_visit (c : Content) : M (list call) Description :=
  let! _ := record_call call_visit in
  lift (visit c).

(** [RailroadDiagram.get_content] *)
Definition RailroadDiagram_get_content (self : Directive)
    : M (list call) Description :=
  yaml_safe_load (join newline (content self)).

(** [LexerRuleDiagram.get_content] *)
Definition LexerRuleDiagram_get_content (self : Directive)
    : M (list call) Description :=
  let raw := join newline (content self) in
  let content := "grammar X; ROOT : " ++ raw ++ " ;" in
  let! model :=
    ModelCache_from_text content (reporter_source self, content_offset self) in
  let! tree := Model_lookup model "ROOT" in
  match tree with
  | Some rule =>
      match rule_content rule with
      | Some c => Renderer_visit c
      | None => raise (RuntimeError "cannot parse the rule")
      end
  | None => raise (RuntimeError "cannot parse the rule")
  end.

(** [ParserRuleDiagram.get_content] *)
Definition ParserRuleDiagram_get_content (self : Directive)
    : M (list call) Description :=
  let raw := join newline (content self) in
  let content := "grammar X; root : " ++ raw ++ " ;" in
  let! model :=
    ModelCache_from_text content (reporter_source self, content_offset self) in
  let! tree := Model_lookup model "root" in
  match tree with
  | Some rule =>
      match rule_content rule with
      | Some c => Renderer_visit c
      | None => raise (RuntimeError "cannot parse the rule")
      end
  | None => raise (RuntimeError "cannot parse the rule")
  end.

(** [self.get_content()], by the class of [self]. *)
Definition get_content (self : Directive) : M (list call) Description :=
  match directive_cls self with
  | RailroadDiagram => RailroadDiagram_get_content self
  | LexerRuleDiagram => LexerRuleDiagram_get_content self
  | ParserRuleDiagram => ParserRuleDiagram_get_content self
  end.

(** [RailroadDiagram.run], inherited by the two rule directives.  The
    handler returns from [run], so the statement after the [try] is its
    [else] suite. *)
Definition run (self : Directive) : M (list call) (list output_node) :=
  let grammar := default "__default__" (ref_context self !! "a4:grammar") in
  try_except_else
    (get_content self)
    is_Exception
    (fun e =>
       let! err := reporter_error (exn_str e) (lineno self) in
       ret [err])
    (fun content =>
       ret [railroad_diagram
              (new_RailroadDiagramNode Description content (settings self)
                                       grammar)]).

End Directives.

Arguments diagram {Description} r.
Arguments options {Description} r.
Arguments node_grammar {Description} r.
Arguments source {Description} r.
Arguments line {Description} r.
Arguments visit_node_html {Builder Description Item} Diagram_load
  Diagram_render node _.
Arguments visit_all {Builder Description Item} Diagram_load Diagram_render
  nodes _.
Arguments translator_builder {Builder} h.
Arguments body {Builder} h.
Arguments logged {Builder} h.
Arguments Build_HTMLTranslator {Builder} _ _ _.
Arguments warning_message {Description} node e.
Arguments system_message {Description} level message line.
Arguments railroad_diagram {Description} n.
Arguments get_content {Description Model Rule Content} safe_load from_text
  lookup rule_content visit self _.
Arguments run {Description Model Rule Content} safe_load from_text
  lookup rule_content visit self _.

(** ** Fixtures: small domains to run the resolver on *)

Module Fixtures.

(** A builder and an environment with nothing in them. *)
Definition unit_env (b : unit) : unit := tt.
Definition unit_docname (b : unit) : string := "index".

(** A domain that knows no rule. *)
Definition empty_domain : Domain unit unit :=
  Build_Domain (fun _ _ _ _ _ _ _ => Ok None).

(** A domain whose targets have no URI in the current builder. *)
Definition nouri_domain : Domain unit unit :=
  Build_Domain (fun _ _ _ _ _ _ _ => Raise NoUri).

(** A domain that links every target within the document and wraps the
    content node it is given, as [make_refnode] does. *)
Definition wrapping_domain : Domain unit unit :=
  Build_Domain (fun _ _ _ _ target _ contnode =>
    Ok (Some (Element reference {[ "refid" := target ]} [contnode]))).

Definition get (d : Domain unit unit) (env : unit) (name : string)
    : result (Domain unit unit) :=
  if String.eqb name "a4" then Ok d
  else Raise (ExtensionError "Domain not registered").

Definition resolver : DomainResolver unit :=
  Build_DomainResolver tt "G".

Definition resolve_with (d : Domain unit unit) :=
  resolve unit_env unit_docname (get d).

(** A diagram engine over descriptions that are plain strings: loading
    rejects the empty description, rendering wraps the text. *)
Definition load (settings : DiagramSettings) (r : DomainResolver unit)
    (description : string) : result string :=
  if String.eqb description EmptyString
  then Raise (OtherException "ValueError" "empty diagram")
  else Ok description.

Definition render (settings : DiagramSettings) (r : DomainResolver unit)
    (item : string) : result string :=
  Ok ("<svg>" ++ item ++ "</svg>").

Definition bad_node : RailroadDiagramNode string :=
  {| diagram := EmptyString; options := DiagramSettings_default;
     node_grammar := "G"; source := Some "index.rst"; line := Some 12%Z |}.

Definition good_node : RailroadDiagramNode string :=
  {| diagram := "A"; options := DiagramSettings_default;
     node_grammar := "G"; source := Some "index.rst"; line := Some 20%Z |}.

Definition translator : HTMLTranslator unit :=
  Build_HTMLTranslator tt [] [].

(** A grammar model as a map from rule names to rule contents, a rule
    without content being a rule that did not parse.  [parse] knows one
    rule, whatever its name, when the text ends in a rule body, and none
    on the text of an empty directive. *)
Definition parse (name : string) (text : string) (origin : string * Z)
    : result (gmap string (option string)) :=
  if String.eqb text ("grammar X; " ++ name ++ " :  ;")
  then Ok ∅
  else Ok {[ name := Some text ]}.

Definition lookup_rule (model : gmap string (option string)) (name : string)
    : option (option string) :=
  model !! name.

Definition content_of (rule : option string) : option string := rule.

Definition visit_rule (c : string) : result string := Ok c.

Definition no_yaml (text : string) : result string :=
  Raise (OtherException "YAMLError" "not a document").

Definition lexer_directive (body : list string) : Directive :=
  {| directive_cls := LexerRuleDiagram; content := body; lineno := 7;
     content_offset := 8; reporter_source := "index.rst";
     settings := DiagramSettings_default; ref_context := ∅ |}.

End Fixtures.

(** ** The other enumerations of [settings.py] *)

Module GrammarType.
Inductive t : Type :=
| MIXED
| LEXER
| PARSER.
End GrammarType.

Module OrderSettings.
Inductive t : Type :=
| BY_SOURCE
| BY_NAME.
End OrderSettings.

Module GroupingSettings.
Inductive t : Type :=
| MIXED
| LEXER_FIRST
| PARSER_FIRST.
End GroupingSettings.

(** A subclass of [enum.Enum]: its members in definition order, and the
    name and the value of each. *)
Class PyEnum (A : Type) : Type := {
  enum_class : string;
  enum_members : list A;
  enum_name : A -> string;
  enum_value : A -> string
}.

(** [cls(value)]: the first member defined with that value, or
    [ValueError]. *)
Definition Enum_call {A} `{PyEnum A} (v : string) : result A :=
  match List.find (fun m => String.eqb (enum_value m) v) enum_members with
  | Some m => Ok m
  | None =>
      Raise (OtherException "ValueError"
               (repr_str v ++ " is not a valid " ++ enum_class))
  end.

#[export] Instance InternalAlignment_enum : PyEnum InternalAlignment := {|
  enum_class := "InternalAlignment";
  enum_members := [CENTER; LEFT; RIGHT; AUTO_LEFT; AUTO_RIGHT];
  enum_name m :=
    match m with
    | CENTER => "CENTER"
    | LEFT => "LEFT"
    | RIGHT => "RIGHT"
    | AUTO_LEFT => "AUTO_LEFT"
    | AUTO_RIGHT => "AUTO_RIGHT"
    end;
  enum_value m :=
    match m with
    | CENTER => "CENTER"
    | LEFT => "LEFT"
    | RIGHT => "RIGHT"
    | AUTO_LEFT => "AUTO_LEFT"
    | AUTO_RIGHT => "AUTO_RIGHT"
    end
|}.

#[export] Instance EndClass_enum : PyEnum EndClass := {|
  enum_class := "EndClass";
  enum_members := [SIMPLE; COMPLEX];
  enum_name m := match m with SIMPLE => "SIMPLE" | COMPLEX => "COMPLEX" end;
  enum_value m := match m with SIMPLE => "SIMPLE" | COMPLEX => "COMPLEX" end
|}.

#[export] Instance GrammarType_enum : PyEnum GrammarType.t := {|
  enum_class := "GrammarType";
  enum_members := [GrammarType.MIXED; GrammarType.LEXER; GrammarType.PARSER];
  enum_name m :=
    match m with
    | GrammarType.MIXED => "MIXED"
    | GrammarType.LEXER => "LEXER"
    | GrammarType.PARSER => "PARSER"
    end;
  enum_value m :=
    match m with
    | GrammarType.MIXED => "MIXED"
    | GrammarType.LEXER => "LEXER"
    | GrammarType.PARSER => "PARSER"
    end
|}.

#[export] Instance OrderSettings_enum : PyEnum OrderSettings.t := {|
  enum_class := "OrderSettings";
  enum_members := [OrderSettings.BY_SOURCE; OrderSettings.BY_NAME];
  enum_name m :=
    match m with
    | OrderSettings.BY_SOURCE => "BY_SOURCE"
    | OrderSettings.BY_NAME => "BY_NAME"
    end;
  enum_value m :=
    match m with
    | OrderSettings.BY_SOURCE => "BY_SOURCE"
    | OrderSettings.BY_NAME => "BY_NAME"
    end
|}.

#[export] Instance GroupingSettings_enum : PyEnum GroupingSettings.t := {|
  enum_class := "GroupingSettings";
  enum_members := [GroupingSettings.MIXED; GroupingSettings.LEXER_FIRST;
                   GroupingSettings.PARSER_FIRST];
  enum_name m :=
    match m with
    | GroupingSettings.MIXED => "MIXED"
    | GroupingSettings.LEXER_FIRST => "LEXER_FIRST"
    | GroupingSettings.PARSER_FIRST => "PARSER_FIRST"
    end;
  enum_value m :=
    match m with
    | GroupingSettings.MIXED => "MIXED"
    | GroupingSettings.LEXER_FIRST => "LEXER_FIRST"
    | GroupingSettings.PARSER_FIRST => "PARSER_FIRST"
    end
|}.

(** An enumeration whose values name its members one to one: looking a
    member up by its value gives it back, a successful lookup gives a member
    with the value asked for, and a value is its member's name. *)
Definition value_round_trip (A : Type) `{PyEnum A} : Prop :=
  (forall m : A, Enum_call (enum_value m) = Ok m) /\
  (forall v (m : A), Enum_call v = Ok m -> enum_value m = v) /\
  (forall m : A, enum_value m = enum_name m) /\
  (forall v, ~ In v (map (@enum_value A _) enum_members) ->
     exists msg, @Enum_call A _ v = Raise (OtherException "ValueError" msg)).

(** ** What a visit writes *)

(** [c in s] for the character [c]. *)
Fixpoint contains (c : ascii) (s : string) : bool :=
  match s with
  | EmptyString => false
  | String c' r => Ascii.eqb c' c || contains c r
  end.

Section DiagramNodeOutcome.

Variables Builder Description Item : Type.
Variable Diagram_load :
  DiagramSettings -> DomainResolver Builder -> Description -> result Item.
Variable Diagram_render :
  DiagramSettings -> DomainResolver Builder -> Item -> result string.

(** The [try] suite of [visit_node_html] for a translator of builder [b]:
    the SVG text, or the exception of [load] or [render]. *)
Definition render_outcome (node : RailroadDiagramNode Description)
    (b : Builder) : result string :=
  let resolver := {| builder := b; grammar := node_grammar node |} in
  match Diagram_load (options node) resolver (diagram node) with
  | Ok data => Diagram_render (options node) resolver data
  | Raise e => Raise e
  end.

(** What a node adds to the body, and to the log. *)
Definition emitted_html (b : Builder)
    (node : RailroadDiagramNode Description) : list string :=
  match render_outcome node b with
  | Ok svg => [container_open; svg; "</p>"]
  | Raise _ => []
  end.

Definition emitted_warnings (b : Builder)
    (node : RailroadDiagramNode Description) : list string :=
  match render_outcome node b with
  | Ok _ => []
  | Raise e => [warning_message node e]
  end.

Definition renders (b : Builder)
    (node : RailroadDiagramNode Description) : bool :=
  is_Ok (render_outcome node b).

End DiagramNodeOutcome.

Arguments render_outcome {Builder Description Item} Diagram_load
  Diagram_render node b.
Arguments emitted_html {Builder Description Item} Diagram_load
  Diagram_render b node.
Arguments emitted_warnings {Builder Description Item} Diagram_load
  Diagram_render b node.
Arguments renders {Builder Description Item} Diagram_load
  Diagram_render b node.

(** ** More fixtures *)

Module MoreFixtures.

(** A domain that answers with the content node alone, no reference
    around it. *)
Definition bare_domain : Domain unit unit :=
  Build_Domain (fun _ _ _ _ _ _ contnode => Ok (Some contnode)).

(** A domain whose reference carries neither [refuri] nor [refid]. *)
Definition untargeted_domain : Domain unit unit :=
  Build_Domain (fun _ _ _ _ _ _ contnode =>
    Ok (Some (Element reference ∅ [contnode]))).

(** A domain that fails on its own account. *)
Definition broken_domain : Domain unit unit :=
  Build_Domain (fun _ _ _ _ _ _ _ =>
    Raise (OtherException "ValueError" "bad inventory")).

(** A grammar model cache that cannot read its input. *)
Definition unreadable (text : string) (origin : string * Z)
    : result (gmap string (option string)) :=
  Raise (OtherException "OSError" "cannot read").

Definition yaml_directive (body : list string) : Directive :=
  {| directive_cls := RailroadDiagram; content := body; lineno := 3;
     content_offset := 4; reporter_source := "index.rst";
     settings := DiagramSettings_default;
     ref_context := {[ "a4:grammar" := "Lang" ]} |}.

Definition parser_directive (body : list string) : Directive :=
  {| directive_cls := ParserRuleDiagram; content := body; lineno := 9;
     content_offset := 10; reporter_source := "index.rst";
     settings := DiagramSettings_default; ref_context := ∅ |}.

(** A YAML reader for one-word documents. *)
Definition one_word (text : string) : result string :=
  if contains " " text
  then Raise (OtherException "YAMLError" "not a word")
  else Ok text.

End MoreFixtures.

(** ** Telling calls and nodes apart *)

Definition is_reporter_call (c : call) : bool :=
  match c with
  | call_reporter_error _ _ => true
  | _ => false
  end.

(** The calls that reach the grammar model or the renderer. *)
Definition is_model_call (c : call) : bool :=
  match c with
  | call_from_text _ _ _ | call_lookup _ | call_visit => true
  | _ => false
  end.

Definition is_system_message {Description} (n : output_node Description)
    : bool :=
  match n with
  | system_message _ _ _ => true
  | railroad_diagram _ => false
  end.

(** * Properties *)

(** ** The definitions on small inputs *)

Example rsplit_qualified : rsplit_dot_1 "Lang.Sub.expr" = ["Lang.Sub"; "expr"].
Proof. reflexivity. Qed.

Example rsplit_plain : last_item (rsplit_dot_1 "expr") = "expr".
Proof. reflexivity. Qed.

Example rsplit_trailing_dot : last_item (rsplit_dot_1 "Lang.") = EmptyString.
Proof. reflexivity. Qed.

Example next_node_document_order :
  next_node is_literal
    (Element (element "paragraph") ∅
       [Text "see ";
        Element reference ∅ [Element literal ∅ [Text "first"]];
        Element literal ∅ [Text "second"]])
  = Some (Element literal ∅ [Text "first"]).
Proof. reflexivity. Qed.

Example astext_separators :
  astext (Element (element "section") ∅
            [Element literal ∅ [Text "a"; Text "b"]; Text "c"])
  = "ab" ++ newline ++ newline ++ "c".
Proof. reflexivity. Qed.

Example resolve_weak_title_content :
  Fixtures.resolve_with Fixtures.wrapping_domain "nodoc title"
    (Some "Lang.expr") true Fixtures.resolver
  = (Ok ("expr", Some "#Lang.expr"), Fixtures.resolver).
Proof. vm_compute. reflexivity. Qed.

Example resolve_unknown_domain :
  resolve Fixtures.unit_env Fixtures.unit_docname
    (fun _ _ => Raise (ExtensionError "Domain not registered"))
    "expr" None false Fixtures.resolver
  = (Raise (ExtensionError "Domain not registered"), Fixtures.resolver).
Proof. reflexivity. Qed.

Example visit_good_node :
  visit_node_html Fixtures.load Fixtures.render Fixtures.good_node
    Fixtures.translator
  = (Ok tt, Build_HTMLTranslator tt
              [container_open; "<svg>A</svg>"; "</p>"] []).
Proof. reflexivity. Qed.

Example visit_bad_then_good :
  visit_all Fixtures.load Fixtures.render
    [Fixtures.bad_node; Fixtures.good_node] Fixtures.translator
  = (Ok tt, Build_HTMLTranslator tt
              [container_open; "<svg>A</svg>"; "</p>"]
              ["index.rst:12: WARNING: empty diagram"]).
Proof. reflexivity. Qed.

Example default_max_width :
  DiagramSettings_getattr DiagramSettings_default "max_width"
  = Some (int_value 500).
Proof. reflexivity. Qed.

(** ** Unescaping *)

Example unescape_escapes :
  unescape (String NUL "*a" ++ String NUL " b" ++ String NUL EmptyString)
  = "*ab".
Proof. reflexivity. Qed.

Lemma remove_nul_before_id c s :
  contains NUL s = false -> remove_nul_before c s = s.
Proof.
  induction s as [|a r IH]; [reflexivity|].
  cbn [contains]. intros H. apply orb_false_iff in H as [Ha Hr].
  cbn [remove_nul_before]. destruct r as [|b r']; [reflexivity|].
  rewrite Ha. cbn [andb]. now rewrite (IH Hr).
Qed.

Lemma remove_nul_id s : contains NUL s = false -> remove_nul s = s.
Proof.
  induction s as [|a r IH]; [reflexivity|].
  cbn [contains remove_nul]. intros H.
  apply orb_false_iff in H as [-> Hr]. now rewrite (IH Hr).
Qed.

(** A text without null characters is its own unescaping. *)
Lemma unescape_id s : contains NUL s = false -> unescape s = s.
Proof.
  intros H. unfold unescape.
  rewrite (remove_nul_before_id _ s H), (remove_nul_before_id _ s H).
  exact (remove_nul_id s H).
Qed.

Lemma remove_nul_before_keeps_out c d s :
  contains d s = false -> contains d (remove_nul_before c s) = false.
Proof.
  enough (Hboth : (contains d s = false ->
                   contains d (remove_nul_before c s) = false) /\
                  (forall a, contains d (String a s) = false ->
                     contains d (remove_nul_before c (String a s)) = false))
    by apply Hboth.
  induction s as [|b r [IH1 IH2]].
  - split; [reflexivity|]. intros a H. exact H.
  - split; [apply IH2|]. intros a H.
    cbn [remove_nul_before].
    cbn [contains] in H. apply orb_false_iff in H as [Ha H].
    destruct (Ascii.eqb a NUL && Ascii.eqb b c).
    + apply IH1. now apply orb_false_iff in H as [_ H].
    + cbn [contains]. rewrite Ha. cbn [orb]. now apply IH2.
Qed.

Lemma remove_nul_keeps_out d s :
  contains d s = false -> contains d (remove_nul s) = false.
Proof.
  induction s as [|a r IH]; [reflexivity|].
  cbn [contains remove_nul]. intros H.
  apply orb_false_iff in H as [Ha Hr].
  destruct (Ascii.eqb a NUL); [now apply IH|].
  cbn [contains]. now rewrite Ha, (IH Hr).
Qed.

(** Unescaping only deletes: a character absent from a text is absent
    from its unescaping. *)
Lemma unescape_keeps_out d s :
  contains d s = false -> contains d (unescape s) = false.
Proof.
  intros H. unfold unescape.
  now apply remove_nul_keeps_out, remove_nul_before_keeps_out,
    remove_nul_before_keeps_out.
Qed.

(** ** The resolver *)

Section ResolverFacts.

Context {Builder BuildEnvironment : Type}.
Variable builder_env : Builder -> BuildEnvironment.
Variable current_docname : Builder -> string.
Variable get_domain :
  BuildEnvironment -> string -> result (Domain Builder BuildEnvironment).

Local Abbreviation resolve' :=
  (resolve builder_env current_docname get_domain).
Local Abbreviation xref_answer' :=
  (xref_answer builder_env current_docname).

(** [resolve] path by path: the resolver object comes back as it was. *)
Lemma resolve_eq (self : DomainResolver Builder) text href weak :
  resolve' text href weak self =
  (match get_domain (builder_env (builder self)) "a4" with
   | Raise e => Raise e
   | Ok d =>
       match xref_answer' d self text href weak with
       | Raise NoUri => Ok (text, None)
       | Raise e => Raise e
       | Ok None => Ok (text, None)
       | Ok (Some n) =>
           match next_node is_reference n with
           | None => Raise AssertionError
           | Some r =>
               match next_node is_literal n with
               | None => Raise AssertionError
               | Some l =>
                   match node_attributes r !! "refuri" with
                   | Some u => Ok (astext l, Some u)
                   | None =>
                       match node_attributes r !! "refid" with
                       | Some i => Ok (astext l, Some ("#" ++ i))
                       | None => Raise (KeyError "refid")
                       end
                   end
               end
           end
       end
   end, self).
Proof.
  unfold resolve, xref_answer.
  destruct href as [h|]; cbv beta iota;
    unfold bind, gets, lift, try_except, ret, raise;
    (destruct (get_domain _ _) as [d|e]; [|reflexivity]);
    (match goal with
     | |- context [resolve_xref ?d ?a ?b ?c ?t ?g ?x ?k] =>
         destruct (resolve_xref d a b c t g x k) as [[n|]|[]]
     end; try reflexivity);
    unfold assert_not_None, bind, ret, raise;
    (destruct (next_node is_reference n) as [r|]; [|reflexivity]);
    (destruct (next_node is_literal n) as [l|]; [|reflexivity]);
    (destruct (node_attributes r !! "refuri"); [reflexivity|]);
    (destruct (node_attributes r !! "refid"); reflexivity).
Qed.

(** The text of a literal built from a string is that string. *)
Lemma astext_new_literal text : astext (new_literal text) = unescape text.
Proof.
  unfold new_literal.
  destruct (String.eqb text EmptyString) eqn:E.
  - apply String.eqb_eq in E. now subst.
  - reflexivity.
Qed.


(** C1. Without an href, when the domain finds nothing for the display
    text or raises [NoUri], [resolve] returns the pair of the unchanged
    display text and no url. *)
Theorem resolve_text_unresolved (self : DomainResolver Builder) text weak d :
  get_domain (builder_env (builder self)) "a4" = Ok d ->
  resolution_fails (xref_answer' d self text None weak) ->
  resolve' text None weak self = (Ok (text, None), self).
Proof.
  intros Hd Hfail. rewrite resolve_eq, Hd.
  destruct Hfail as [-> | ->]; reflexivity.
Qed.

(** C3. With an href and a weak title, a failed resolution gives back the
    supplied display text as label, and no url. *)
Theorem resolve_weak_title_unresolved (self : DomainResolver Builder)
    text h d :
  get_domain (builder_env (builder self)) "a4" = Ok d ->
  resolution_fails (xref_answer' d self text (Some h) true) ->
  resolve' text (Some h) true self = (Ok (text, None), self).
Proof.
  intros Hd Hfail. rewrite resolve_eq, Hd.
  destruct Hfail as [-> | ->]; reflexivity.
Qed.

(** C4. Whatever the arguments, an unresolved target is no error: a
    [NoUri] raised by the domain is caught, like a [None] answer, and
    [resolve] returns normally with the display text and no url. *)
Theorem resolve_unresolved_is_no_error (self : DomainResolver Builder)
    text href weak d :
  get_domain (builder_env (builder self)) "a4" = Ok d ->
  (xref_answer' d self text href weak = Raise NoUri ->
   resolve' text href weak self = (Ok (text, None), self)) /\
  (resolution_fails (xref_answer' d self text href weak) ->
   is_Ok (fst (resolve' text href weak self)) = true /\
   exists label, fst (resolve' text href weak self) = Ok (label, None)).
Proof.
  intros Hd. rewrite resolve_eq, Hd. split.
  - intros ->. reflexivity.
  - intros [-> | ->]; simpl; eauto.
Qed.


(** C8. A call to [resolve] leaves the resolver as it found it: the
    [builder] and [grammar] fields are the same after the call, on every
    path, normal or exceptional. *)
Theorem resolve_keeps_resolver (self : DomainResolver Builder)
    text href weak :
  snd (resolve' text href weak self) = self /\
  builder (snd (resolve' text href weak self)) = builder self /\
  grammar (snd (resolve' text href weak self)) = grammar self.
Proof.
  rewrite resolve_eq. simpl. auto.
Qed.

(** C9. When the domain returns a node and [resolve] returns, the url is
    present: it is the [refuri] of the first reference when there is one,
    and otherwise [#] followed by its [refid]; and [resolve] does return
    when the node holds a reference with one of the two and a literal. *)
Theorem resolve_success_url (self : DomainResolver Builder)
    text href weak d n :
  get_domain (builder_env (builder self)) "a4" = Ok d ->
  xref_answer' d self text href weak = Ok (Some n) ->
  (forall label url s',
     resolve' text href weak self = (Ok (label, url), s') ->
     url <> None /\
     exists r, next_node is_reference n = Some r /\
       match node_attributes r !! "refuri" with
       | Some u => url = Some u
       | None => exists i, node_attributes r !! "refid" = Some i /\
                           url = Some ("#" ++ i)
       end) /\
  (forall r l,
     next_node is_reference n = Some r ->
     next_node is_literal n = Some l ->
     is_Some (node_attributes r !! "refuri") \/
     is_Some (node_attributes r !! "refid") ->
     exists u, resolve' text href weak self = (Ok (astext l, Some u), self)).
Proof.
  intros Hd Hans. rewrite resolve_eq, Hd, Hans. split.
  - intros label url s' H.
    destruct (next_node is_reference n) as [r|]; [|discriminate].
    destruct (next_node is_literal n) as [l|]; [|discriminate].
    destruct (node_attributes r !! "refuri") as [u|] eqn:Hu.
    + injection H as <- <- <-. split; [discriminate|].
      exists r. rewrite Hu. auto.
    + destruct (node_attributes r !! "refid") as [i|] eqn:Hi;
        [|discriminate].
      injection H as <- <- <-. split; [discriminate|].
      exists r. rewrite Hu. eauto.
  - intros r l -> -> [[u ->] | [i Hi]].
    + eauto.
    + destruct (node_attributes r !! "refuri") as [u|]; [eauto|].
      rewrite Hi. eauto.
Qed.

End ResolverFacts.

(** The resolver on the fixtures. *)

Lemma wrapping_domain_keeps_title :
  keeps_explicit_title Fixtures.wrapping_domain.
Proof.
  intros env docname b typ target xref contnode n _ Hlit H.
  simpl in H. injection H as <-.
  destruct contnode as [data | [] attrs children]; try discriminate Hlit.
  reflexivity.
Qed.

Lemma resolve_text_unresolved_witness :
  Fixtures.get Fixtures.empty_domain tt "a4" = Ok Fixtures.empty_domain /\
  Fixtures.resolve_with Fixtures.empty_domain "expr" None false
    Fixtures.resolver = (Ok ("expr", None), Fixtures.resolver).
Proof.
  split; [reflexivity|].
  apply (resolve_text_unresolved Fixtures.unit_env Fixtures.unit_docname
           (Fixtures.get Fixtures.empty_domain) Fixtures.resolver
           "expr" false Fixtures.empty_domain).
  - reflexivity.
  - left. reflexivity.
Defined.

Lemma resolve_weak_title_unresolved_witness :
  Fixtures.get Fixtures.nouri_domain tt "a4" = Ok Fixtures.nouri_domain /\
  Fixtures.resolve_with Fixtures.nouri_domain "expr" (Some "G.expr") true
    Fixtures.resolver = (Ok ("expr", None), Fixtures.resolver).
Proof.
  split; [reflexivity|].
  apply (resolve_weak_title_unresolved Fixtures.unit_env
           Fixtures.unit_docname (Fixtures.get Fixtures.nouri_domain)
           Fixtures.resolver "expr" "G.expr" Fixtures.nouri_domain).
  - reflexivity.
  - right. reflexivity.
Defined.

Lemma resolve_unresolved_is_no_error_witness :
  Fixtures.get Fixtures.nouri_domain tt "a4" = Ok Fixtures.nouri_domain /\
  Fixtures.resolve_with Fixtures.nouri_domain "a rule" (Some "G.r") false
    Fixtures.resolver = (Ok ("a rule", None), Fixtures.resolver).
Proof.
  split; [reflexivity|].
  apply (proj1 (resolve_unresolved_is_no_error Fixtures.unit_env
                  Fixtures.unit_docname (Fixtures.get Fixtures.nouri_domain)
                  Fixtures.resolver "a rule" (Some "G.r") false
                  Fixtures.nouri_domain eq_refl)).
  reflexivity.
Defined.

(** C2. The claim holds of the failure path and fails on the success path:
    before a domain that wraps the content node it is given, as the a4
    domain does for a reference with an explicit title, a display text with
    a null character in it comes back without it, because the label is read
    back from the literal through [astext] and not taken from the title. *)
Theorem resolve_explicit_title_drops_nul :
  keeps_explicit_title Fixtures.wrapping_domain /\
  Fixtures.resolve_with Fixtures.wrapping_domain
    ("a" ++ String NUL "b") (Some "G.r") false Fixtures.resolver
  = (Ok ("ab", Some "#G.r"), Fixtures.resolver) /\
  "ab" <> "a" ++ String NUL "b" /\
  Fixtures.resolve_with Fixtures.empty_domain
    ("a" ++ String NUL "b") (Some "G.r") false Fixtures.resolver
  = (Ok ("a" ++ String NUL "b", None), Fixtures.resolver).
Proof.
  split; [exact wrapping_domain_keeps_title|].
  split; [vm_compute; reflexivity|].
  split; [discriminate|].
  vm_compute. reflexivity.
Qed.


Lemma resolve_success_url_witness :
  exists u,
    Fixtures.resolve_with Fixtures.wrapping_domain "expr" None false
      Fixtures.resolver = (Ok ("expr", Some u), Fixtures.resolver).
Proof.
  apply (proj2 (resolve_success_url Fixtures.unit_env Fixtures.unit_docname
                  (Fixtures.get Fixtures.wrapping_domain) Fixtures.resolver
                  "expr" None false Fixtures.wrapping_domain
                  (Element reference {[ "refid" := "expr" ]}
                     [new_literal "expr"])
                  eq_refl eq_refl)
           (Element reference {[ "refid" := "expr" ]} [new_literal "expr"])
           (new_literal "expr") eq_refl eq_refl).
  right. exists "expr". apply lookup_singleton_eq.
Defined.

(** ** Visiting a diagram node *)

Section VisitFacts.

Context {Builder Description Item : Type}.
Variable Diagram_load :
  DiagramSettings -> DomainResolver Builder -> Description -> result Item.
Variable Diagram_render :
  DiagramSettings -> DomainResolver Builder -> Item -> result string.

Local Abbreviation visit_node_html' :=
  (visit_node_html Diagram_load Diagram_render).
Local Abbreviation visit_all' := (visit_all Diagram_load Diagram_render).

(** The [try] suite of the visit: load, then render. *)
Lemma visit_node_html_eq (node : RailroadDiagramNode Description)
    (t : HTMLTranslator Builder) :
  let resolver :=
    Build_DomainResolver (translator_builder t) (node_grammar node) in
  visit_node_html' node t =
  match Diagram_load (options node) resolver (diagram node) with
  | Raise e =>
      (Ok tt, Build_HTMLTranslator (translator_builder t) (body t)
                (logged t ++ [warning_message node e]))
  | Ok data =>
      match Diagram_render (options node) resolver data with
      | Raise e =>
          (Ok tt, Build_HTMLTranslator (translator_builder t) (body t)
                    (logged t ++ [warning_message node e]))
      | Ok svg =>
          (Ok tt, Build_HTMLTranslator (translator_builder t)
                    (body t ++ [container_open; svg; "</p>"]) (logged t))
      end
  end.
Proof.
  unfold visit_node_html, try_except_else, bind, gets, lift, ret,
    logger_exception, body_append, modify, is_Exception.
  cbn [fst snd].
  destruct (Diagram_load _ _ _) as [data|e]; [|reflexivity].
  destruct (Diagram_render _ _ _) as [svg|e]; [|reflexivity].
  cbn. rewrite <- !app_assoc. reflexivity.
Qed.

Lemma visit_node_html_returns (node : RailroadDiagramNode Description)
    (t : HTMLTranslator Builder) :
  fst (visit_node_html' node t) = Ok tt.
Proof.
  rewrite visit_node_html_eq.
  destruct (Diagram_load _ _ _); [destruct (Diagram_render _ _ _)|];
    reflexivity.
Qed.

Lemma visit_all_returns (nodes : list (RailroadDiagramNode Description))
    (t : HTMLTranslator Builder) :
  fst (visit_all' nodes t) = Ok tt.
Proof.
  revert t. induction nodes as [|node rest IH]; intros t; [reflexivity|].
  cbn [visit_all]. unfold bind at 1.
  pose proof (visit_node_html_returns node t) as H.
  destruct (visit_node_html' node t) as [[[]|e] t']; [|discriminate].
  unfold bind, depart_node, ret. apply IH.
Qed.

(** C5. When loading or rendering the diagram of a node raises, the visit
    catches the exception, logs it behind the node's source and line,
    appends nothing to the body and returns normally; and a walk over any
    nodes that has this one among them returns normally too. *)
Theorem visit_node_html_failure (node : RailroadDiagramNode Description)
    (t : HTMLTranslator Builder) (e : exn) :
  let resolver :=
    Build_DomainResolver (translator_builder t) (node_grammar node) in
  Diagram_load (options node) resolver (diagram node) = Raise e \/
  (exists data,
     Diagram_load (options node) resolver (diagram node) = Ok data /\
     Diagram_render (options node) resolver data = Raise e) ->
  visit_node_html' node t =
    (Ok tt, Build_HTMLTranslator (translator_builder t) (body t)
              (logged t ++
               [format_option id (source node) ++ ":" ++
                format_option str_int (line node) ++ ": WARNING: " ++
                exn_str e])) /\
  body (snd (visit_node_html' node t)) = body t /\
  forall before after,
    fst (visit_all' (before ++ node :: after) t) = Ok tt.
Proof.
  intros resolver H.
  assert (Heq : visit_node_html' node t =
                (Ok tt, Build_HTMLTranslator (translator_builder t) (body t)
                          (logged t ++ [warning_message node e]))).
  { rewrite visit_node_html_eq. fold resolver.
    destruct H as [-> | (data & -> & ->)]; reflexivity. }
  split; [exact Heq|]. split.
  - rewrite Heq. reflexivity.
  - intros before after. apply visit_all_returns.
Qed.

End VisitFacts.

Lemma visit_node_html_failure_witness :
  Fixtures.load (options Fixtures.bad_node)
    (Build_DomainResolver tt "G") (diagram Fixtures.bad_node)
  = Raise (OtherException "ValueError" "empty diagram") /\
  visit_node_html Fixtures.load Fixtures.render Fixtures.bad_node
    Fixtures.translator =
  (Ok tt, Build_HTMLTranslator tt []
            ["index.rst:12: WARNING: empty diagram"]).
Proof.
  split; [reflexivity|].
  apply (proj1 (visit_node_html_failure Fixtures.load Fixtures.render
                  Fixtures.bad_node Fixtures.translator
                  (OtherException "ValueError" "empty diagram")
                  (or_introl eq_refl))).
Defined.

(** ** The directives *)

Section DirectiveFacts.

Context {Description Model Rule Content : Type}.
Variable safe_load : string -> result Description.
Variable from_text : string -> string * Z -> result Model.
Variable lookup : Model -> string -> option Rule.
Variable rule_content : Rule -> option Content.
Variable visit : Content -> result Description.

Local Abbreviation get_content' :=
  (get_content safe_load from_text lookup rule_content visit).
Local Abbreviation run' :=
  (run safe_load from_text lookup rule_content visit).

(** [get_content] of a rule directive, path by path, with the calls it
    makes. *)
Lemma rule_get_content_eq (self : Directive) (calls : list call) name text :
  rule_directive self name text ->
  let asked :=
    call_from_text text (reporter_source self) (content_offset self) in
  get_content' self calls =
  match from_text text (reporter_source self, content_offset self) with
  | Raise e => (Raise e, (calls ++ [asked])%list)
  | Ok model =>
      match lookup model name with
      | Some rule =>
          match rule_content rule with
          | Some c =>
              (visit c, (calls ++ [asked; call_lookup name; call_visit])%list)
          | None =>
              (Raise (RuntimeError "cannot parse the rule"),
               (calls ++ [asked; call_lookup name])%list)
          end
      | None =>
          (Raise (RuntimeError "cannot parse the rule"),
           (calls ++ [asked; call_lookup name])%list)
      end
  end.
Proof.
  intros [(Hcls & -> & ->) | (Hcls & -> & ->)] asked; subst asked;
    unfold get_content; rewrite Hcls;
    unfold LexerRuleDiagram_get_content, ParserRuleDiagram_get_content,
      ModelCache_from_text, Model_lookup, Renderer_visit, record_call,
      bind, modify, lift, ret, raise;
    cbn [fst snd];
    (destruct (from_text _ _) as [model|e]; [|reflexivity]);
    (destruct (lookup model _) as [rule|];
       [destruct (rule_content rule) as [c|]|]);
    rewrite <- ?app_assoc; reflexivity.
Qed.

(** Whatever [get_content] raises, [run] hands to the reporter, once. *)
Lemma run_reports_exception (self : Directive) (calls calls' : list call) e :
  get_content' self calls = (Raise e, calls') ->
  run' self calls =
  (Ok [system_message ERROR_LEVEL (exn_str e) (lineno self)],
   (calls' ++ [call_reporter_error (exn_str e) (lineno self)])%list).
Proof.
  intros H. unfold run, try_except_else. rewrite H.
  reflexivity.
Qed.

Lemma run_wraps_content (self : Directive) (calls calls' : list call) d :
  get_content' self calls = (Ok d, calls') ->
  run' self calls =
  (Ok [railroad_diagram
         (new_RailroadDiagramNode Description d (settings self)
            (default "__default__" (ref_context self !! "a4:grammar")))],
   calls').
Proof.
  intros H. unfold run, try_except_else. rewrite H.
  reflexivity.
Qed.

(** C6. In a rule directive, when the lookup of the synthetic rule gives
    nothing, or a rule without content, [get_content] raises the error
    [cannot parse the rule], and [run] returns one reporter error node with
    that message and the directive's line number in place of a diagram
    node, having asked the grammar model once. *)
Theorem rule_not_found_reported (self : Directive) (calls : list call)
    name text model :
  rule_directive self name text ->
  from_text text (reporter_source self, content_offset self) = Ok model ->
  lookup model name = None \/
  (exists rule, lookup model name = Some rule /\ rule_content rule = None) ->
  let asked :=
    call_from_text text (reporter_source self) (content_offset self) in
  get_content' self calls =
    (Raise (RuntimeError "cannot parse the rule"),
     (calls ++ [asked; call_lookup name])%list) /\
  run' self calls =
    (Ok [system_message ERROR_LEVEL "cannot parse the rule" (lineno self)],
     (calls ++ [asked; call_lookup name;
                call_reporter_error "cannot parse the rule" (lineno self)])
     %list).
Proof.
  intros Hdir Hmodel Hrule asked.
  assert (Hget : get_content' self calls =
                 (Raise (RuntimeError "cannot parse the rule"),
                  (calls ++ [asked; call_lookup name])%list)).
  { rewrite (rule_get_content_eq self calls name text Hdir), Hmodel.
    destruct Hrule as [-> | (rule & -> & ->)]; reflexivity. }
  split; [exact Hget|].
  rewrite (run_reports_exception _ _ _ _ Hget).
  rewrite <- app_assoc. reflexivity.
Qed.

(** C10. A lexer rule directive hands the model cache the text
    [grammar X; ROOT : raw ;] and looks up [ROOT]; a parser rule directive
    hands it [grammar X; root : raw ;] and looks up [root].  These are the
    only texts compiled and names looked up, and the description returned
    is what the renderer makes of the content of that one rule. *)
Theorem rule_directive_single_rule (self : Directive) (calls : list call)
    name text :
  rule_directive self name text ->
  let asked :=
    call_from_text text (reporter_source self) (content_offset self) in
  (exists rest,
     snd (get_content' self calls) = (calls ++ asked :: rest)%list /\
     (rest = [] \/ rest = [call_lookup name] \/
      rest = [call_lookup name; call_visit])) /\
  (forall model rule c,
     from_text text (reporter_source self, content_offset self) = Ok model ->
     lookup model name = Some rule ->
     rule_content rule = Some c ->
     get_content' self calls =
       (visit c, (calls ++ [asked; call_lookup name; call_visit])%list) /\
     forall d, visit c = Ok d ->
       fst (run' self calls) =
       Ok [railroad_diagram
             (new_RailroadDiagramNode Description d (settings self)
                (default "__default__" (ref_context self !! "a4:grammar")))]).
Proof.
  intros Hdir asked.
  pose proof (rule_get_content_eq self calls name text Hdir) as Heq.
  cbn zeta in Heq. fold asked in Heq. split.
  - rewrite Heq.
    destruct (from_text _ _) as [model|e]; [|exists []; auto].
    destruct (lookup model name) as [rule|];
      [destruct (rule_content rule) as [c|]|]; cbn [snd]; eauto.
  - intros model rule c Hmodel Hrule Hc.
    rewrite Hmodel, Hrule, Hc in Heq. split; [exact Heq|].
    intros d Hd. rewrite Hd in Heq.
    rewrite (run_wraps_content _ _ _ _ Heq). reflexivity.
Qed.

End DirectiveFacts.

Lemma rule_not_found_reported_witness :
  rule_directive (Fixtures.lexer_directive []) "ROOT" "grammar X; ROOT :  ;" /\
  run Fixtures.no_yaml (Fixtures.parse "ROOT") Fixtures.lookup_rule
    Fixtures.content_of Fixtures.visit_rule (Fixtures.lexer_directive []) []
  = (Ok [system_message 3 "cannot parse the rule" 7],
     [call_from_text "grammar X; ROOT :  ;" "index.rst" 8;
      call_lookup "ROOT";
      call_reporter_error "cannot parse the rule" 7]).
Proof.
  assert (Hdir : rule_directive (Fixtures.lexer_directive []) "ROOT"
                   "grammar X; ROOT :  ;").
  { left. repeat split; reflexivity. }
  split; [exact Hdir|].
  apply (proj2 (rule_not_found_reported Fixtures.no_yaml
                  (Fixtures.parse "ROOT") Fixtures.lookup_rule
                  Fixtures.content_of Fixtures.visit_rule
                  (Fixtures.lexer_directive []) [] "ROOT"
                  "grammar X; ROOT :  ;" ∅ Hdir eq_refl
                  (or_introl eq_refl))).
Defined.

Lemma rule_directive_single_rule_witness :
  rule_directive (Fixtures.lexer_directive ["'a' | 'b'"]) "ROOT"
    "grammar X; ROOT : 'a' | 'b' ;" /\
  get_content Fixtures.no_yaml (Fixtures.parse "ROOT") Fixtures.lookup_rule
    Fixtures.content_of Fixtures.visit_rule
    (Fixtures.lexer_directive ["'a' | 'b'"]) []
  = (Ok "grammar X; ROOT : 'a' | 'b' ;",
     [call_from_text "grammar X; ROOT : 'a' | 'b' ;" "index.rst" 8;
      call_lookup "ROOT"; call_visit]).
Proof.
  assert (Hdir : rule_directive (Fixtures.lexer_directive ["'a' | 'b'"])
                   "ROOT" "grammar X; ROOT : 'a' | 'b' ;").
  { left. repeat split; reflexivity. }
  split; [exact Hdir|].
  apply (proj1 (proj2 (rule_directive_single_rule Fixtures.no_yaml
                         (Fixtures.parse "ROOT") Fixtures.lookup_rule
                         Fixtures.content_of Fixtures.visit_rule
                         (Fixtures.lexer_directive ["'a' | 'b'"]) [] "ROOT"
                         "grammar X; ROOT : 'a' | 'b' ;" Hdir)
                  {[ "ROOT" := Some "grammar X; ROOT : 'a' | 'b' ;" ]}
                  (Some "grammar X; ROOT : 'a' | 'b' ;")
                  "grammar X; ROOT : 'a' | 'b' ;"
                  eq_refl (lookup_singleton_eq _ _) eq_refl)).
Defined.

(** ** The settings *)

(** The [__dict__] of a settings instance, name by name. *)
Lemma DiagramSettings_instance_lookup (self : DiagramSettings) name :
  ob_dict (DiagramSettings_instance self) !! name
  = DiagramSettings_getattr self name.
Proof.
  destruct self as [[[[pt pr] pb] pl] vs hs ar dc thp ia ca ec mw].
  unfold DiagramSettings_instance, DiagramSettings_getattr.
  cbn [padding vertical_separation horizontal_separation arc_radius
       diagram_class translate_half_pixel internal_alignment
       character_advance end_class max_width ob_dict].
  repeat match goal with
         | |- context [String.eqb name ?k] =>
             destruct (String.eqb_spec name k) as [-> | Hne];
             [ now rewrite lookup_insert_eq
             | rewrite lookup_insert_ne by congruence; clear Hne ]
         end.
  apply lookup_empty.
Qed.

Lemma DiagramSettings_getattr_fields (self : DiagramSettings) name :
  is_Some (DiagramSettings_getattr self name) <->
  In name (map field_name (dc_fields DiagramSettings_class)).
Proof.
  destruct self as [[[[pt pr] pb] pl] vs hs ar dc thp ia ca ec mw].
  split.
  - unfold DiagramSettings_getattr.
    repeat match goal with
           | |- context [String.eqb name ?k] =>
               destruct (String.eqb_spec name k) as [-> | _];
               [intros _; simpl; tauto|]
           end.
    intros [v Hv]. discriminate.
  - simpl. intros H.
    repeat (destruct H as [<- | H]; [simpl; eauto|]).
    contradiction.
Qed.

(** Two settings with the same instance are the same settings. *)
Lemma DiagramSettings_instance_inj (s1 s2 : DiagramSettings) :
  DiagramSettings_instance s1 = DiagramSettings_instance s2 -> s1 = s2.
Proof.
  intros H.
  assert (Hget : forall name,
             DiagramSettings_getattr s1 name = DiagramSettings_getattr s2 name).
  { intros name. now rewrite <- !DiagramSettings_instance_lookup, H. }
  destruct s1 as [[[[pt1 pr1] pb1] pl1] vs1 hs1 ar1 dc1 thp1 ia1 ca1 ec1 mw1].
  destruct s2 as [[[[pt2 pr2] pb2] pl2] vs2 hs2 ar2 dc2 thp2 ia2 ca2 ec2 mw2].
  pose proof (Hget "padding") as H1.
  pose proof (Hget "vertical_separation") as H2.
  pose proof (Hget "horizontal_separation") as H3.
  pose proof (Hget "arc_radius") as H4.
  pose proof (Hget "diagram_class") as H5.
  pose proof (Hget "translate_half_pixel") as H6.
  pose proof (Hget "internal_alignment") as H7.
  pose proof (Hget "character_advance") as H8.
  pose proof (Hget "end_class") as H9.
  pose proof (Hget "max_width") as H10.
  cbn in H1, H2, H3, H4, H5, H6, H7, H8, H9, H10.
  congruence.
Qed.

(** On an instance of its own class every attribute operation of a frozen
    dataclass raises and leaves the instance as it was. *)
Lemma frozen_attempt (cls : dataclass) (op : attr_op) (self : instance) :
  dc_frozen cls = true ->
  ob_class self = dc_name cls ->
  attempt cls op self = (Raise (frozen_error op), self).
Proof.
  intros Hfrozen Hcls.
  destruct op as [name value | name]; cbn [attempt frozen_error];
    unfold dataclass_setattr, dataclass_delattr, bind, gets,
      frozen_condition;
    rewrite Hfrozen, Hcls, String.eqb_refl; reflexivity.
Qed.

Lemma frozen_attempt_all (cls : dataclass) (ops : list attr_op)
    (self : instance) :
  dc_frozen cls = true ->
  ob_class self = dc_name cls ->
  attempt_all cls ops self = (map (fun op => Raise (frozen_error op)) ops, self).
Proof.
  intros Hfrozen Hcls. induction ops as [|op rest IH]; [reflexivity|].
  cbn [attempt_all map]. now rewrite frozen_attempt, IH.
Qed.

(** A class that is not frozen takes an assignment: the guard is what
    keeps a frozen instance. *)
Example unfrozen_setattr :
  ob_dict
    (snd (dataclass_setattr
            {| dc_name := "DiagramSettings"; dc_frozen := false;
               dc_fields := dc_fields DiagramSettings_class |}
            "max_width" (int_value 0)
            (DiagramSettings_instance DiagramSettings_default)))
  !! "max_width" = Some (int_value 0).
Proof. apply lookup_insert_eq. Qed.

Lemma is_field_In (cls : dataclass) name :
  is_field cls name = true <-> In name (map field_name (dc_fields cls)).
Proof.
  unfold is_field. rewrite existsb_exists, in_map_iff. split.
  - intros (f & Hin & Heq). apply String.eqb_eq in Heq. eauto.
  - intros (f & Heq & Hin). exists f. split; [exact Hin|].
    now apply String.eqb_eq.
Qed.

(** A keyword that names no field is refused at construction. *)
Lemma dataclass_init_unexpected (cls : dataclass)
    (kwargs : gmap string field_value) k v :
  kwargs !! k = Some v ->
  is_field cls k = false ->
  exists msg, dataclass_init cls kwargs = Raise (OtherException "TypeError" msg).
Proof.
  intros Hk Hno. unfold dataclass_init.
  destruct (List.find _ _) as [k'|] eqn:Hfind; [eauto|].
  exfalso.
  assert (Hin : In k (map fst (map_to_list kwargs))).
  { apply in_map_iff. exists (k, v). split; [reflexivity|].
    apply list_elem_of_In. now apply elem_of_map_to_list. }
  pose proof (List.find_none _ _ Hfind k Hin) as Hneg.
  cbv beta in Hneg. rewrite Hno in Hneg. discriminate.
Qed.

Lemma dataclass_init_accepts (cls : dataclass)
    (kwargs : gmap string field_value) :
  (forall k, is_Some (kwargs !! k) -> is_field cls k = true) ->
  List.find (fun k => negb (is_field cls k)) (map fst (map_to_list kwargs))
  = None.
Proof.
  intros Hall.
  destruct (List.find _ _) as [k|] eqn:Hfind; [|reflexivity].
  apply List.find_some in Hfind as [Hin Hneg].
  apply in_map_iff in Hin as ([k' v] & <- & Hin).
  apply list_elem_of_In, elem_of_map_to_list in Hin.
  cbn [fst] in Hneg. rewrite Hall in Hneg by eauto. discriminate.
Qed.

(** Construction from the ten field values gives the instance of the
    record that holds them. *)
Lemma DiagramSettings_init (self : DiagramSettings) :
  dataclass_init DiagramSettings_class
    (ob_dict (DiagramSettings_instance self))
  = Ok (DiagramSettings_instance self).
Proof.
  unfold dataclass_init. rewrite dataclass_init_accepts.
  2:{ intros k Hk. rewrite DiagramSettings_instance_lookup in Hk.
      apply is_field_In.
      exact (proj1 (DiagramSettings_getattr_fields self k) Hk). }
  cbn [DiagramSettings_class dc_name dc_fields fold_right field_name
       field_default].
  rewrite !DiagramSettings_instance_lookup.
  destruct self as [[[[pt pr] pb] pl] vs hs ar dc thp ia ca ec mw].
  reflexivity.
Qed.

(** [DiagramSettings()] *)
Example DiagramSettings_init_default :
  dataclass_init DiagramSettings_class ∅
  = Ok (DiagramSettings_instance DiagramSettings_default).
Proof.
  unfold dataclass_init. rewrite dataclass_init_accepts.
  2:{ intros k [v Hv]. now rewrite lookup_empty in Hv. }
  cbn [DiagramSettings_class dc_name dc_fields fold_right field_name
       field_default].
  rewrite !lookup_empty. reflexivity.
Qed.

(** [run] hands the settings of the directive to the node it makes. *)
Lemma run_keeps_settings {Description Model Rule Content : Type}
    (safe_load : string -> result Description)
    (from_text : string -> string * Z -> result Model)
    (lookup : Model -> string -> option Rule)
    (rule_content : Rule -> option Content)
    (visit : Content -> result Description)
    (d : Directive) (calls : list call) nodes n :
  fst (run safe_load from_text lookup rule_content visit d calls) = Ok nodes ->
  In (railroad_diagram n) nodes ->
  options n = settings d.
Proof.
  destruct (get_content safe_load from_text lookup rule_content visit d calls)
    as [[c|e] calls'] eqn:Hget.
  - rewrite (run_wraps_content _ _ _ _ _ _ _ _ _ Hget). cbn [fst].
    intros [= <-] [[= <-] | []]. reflexivity.
  - rewrite (run_reports_exception _ _ _ _ _ _ _ _ _ Hget). cbn [fst].
    intros [= <-] [H | []]. discriminate.
Qed.

(** C7. [DiagramSettings] is a frozen dataclass of ten fields and no
    other: [padding], four integers; the integers [vertical_separation],
    [horizontal_separation], [arc_radius] and [max_width]; the string
    [diagram_class]; the boolean [translate_half_pixel];
    [internal_alignment], one of the five alignments; the float
    [character_advance]; [end_class], simple or complex.  An instance holds
    a value of the annotated type under each of these names and nothing
    else, is determined by these ten values, and takes no other keyword at
    construction.  Whatever attributes a program tries to assign or delete
    on it, in whatever order, every attempt raises [FrozenInstanceError] and
    the instance stays as it was; and [run], the one place of the
    directives that handles settings, hands them on as they are. *)
Theorem DiagramSettings_flat_frozen (self : DiagramSettings) :
  dc_frozen DiagramSettings_class = true /\
  map (fun f => (field_name f, field_annotation f))
      (dc_fields DiagramSettings_class)
  = [("padding", Tuple_int_4); ("vertical_separation", int_type);
     ("horizontal_separation", int_type); ("arc_radius", int_type);
     ("diagram_class", str_type); ("translate_half_pixel", bool_type);
     ("internal_alignment", InternalAlignment_type);
     ("character_advance", float_type); ("end_class", EndClass_type);
     ("max_width", int_type)] /\
  (forall name,
     is_Some (ob_dict (DiagramSettings_instance self) !! name) <->
     In name (map field_name (dc_fields DiagramSettings_class))) /\
  Forall (fun f =>
            option_map type_of_value
              (ob_dict (DiagramSettings_instance self) !! field_name f)
            = Some (field_annotation f))
         (dc_fields DiagramSettings_class) /\
  In (internal_alignment self) [CENTER; LEFT; RIGHT; AUTO_LEFT; AUTO_RIGHT] /\
  In (end_class self) [SIMPLE; COMPLEX] /\
  (forall other,
     (forall name, DiagramSettings_getattr self name
                   = DiagramSettings_getattr other name) ->
     self = other) /\
  dataclass_init DiagramSettings_class
    (ob_dict (DiagramSettings_instance self))
  = Ok (DiagramSettings_instance self) /\
  (forall kwargs k v,
     kwargs !! k = Some v ->
     ~ In k (map field_name (dc_fields DiagramSettings_class)) ->
     exists msg,
       dataclass_init DiagramSettings_class kwargs
       = Raise (OtherException "TypeError" msg)) /\
  (forall ops : list attr_op,
     attempt_all DiagramSettings_class ops (DiagramSettings_instance self)
     = (map (fun op => Raise (frozen_error op)) ops,
        DiagramSettings_instance self)) /\
  (forall (Description Model Rule Content : Type)
          (safe_load : string -> result Description)
          (from_text : string -> string * Z -> result Model)
          (lookup : Model -> string -> option Rule)
          (rule_content : Rule -> option Content)
          (visit : Content -> result Description)
          (d : Directive) (calls : list call) nodes n,
     settings d = self ->
     fst (run safe_load from_text lookup rule_content visit d calls)
     = Ok nodes ->
     In (railroad_diagram n) nodes ->
     options n = self).
Proof.
  split; [reflexivity|]. split; [reflexivity|]. split.
  { intros name. rewrite DiagramSettings_instance_lookup.
    apply DiagramSettings_getattr_fields. }
  split.
  { cbn [DiagramSettings_class dc_fields].
    repeat (apply List.Forall_cons;
            [ rewrite DiagramSettings_instance_lookup;
              destruct self as [[[[pt pr] pb] pl] ? ? ? ? ? ? ? ? ?];
              reflexivity | ]).
    apply List.Forall_nil. }
  split; [destruct (internal_alignment self); simpl; tauto|].
  split; [destruct (end_class self); simpl; tauto|].
  split.
  { intros other Hget. apply DiagramSettings_instance_inj.
    unfold DiagramSettings_instance at 1 2.
    assert (Hdict : ob_dict (DiagramSettings_instance self)
                    = ob_dict (DiagramSettings_instance other)).
    { apply map_eq. intros name.
      now rewrite !DiagramSettings_instance_lookup. }
    destruct self as [[[[pt pr] pb] pl] ? ? ? ? ? ? ? ? ?].
    destruct other as [[[[pt' pr'] pb'] pl'] ? ? ? ? ? ? ? ? ?].
    cbn [DiagramSettings_instance padding ob_dict] in *.
    now rewrite Hdict. }
  split; [apply DiagramSettings_init|].
  split.
  { intros kwargs k v Hk Hno.
    apply (dataclass_init_unexpected _ _ k v Hk).
    destruct (is_field DiagramSettings_class k) eqn:E; [|reflexivity].
    now apply is_field_In in E. }
  split.
  { intros ops. apply frozen_attempt_all; [reflexivity|].
    destruct self as [[[[pt pr] pb] pl] ? ? ? ? ? ? ? ? ?]. reflexivity. }
  intros Description Model Rule Content safe_load from_text lookup
    rule_content visit d calls nodes n <- Hrun Hin.
  exact (run_keeps_settings _ _ _ _ _ _ _ _ _ Hrun Hin).
Qed.

(** * Further properties *)

(** ** The last component of a dotted name *)

Lemma rpartition_dot_None s :
  rpartition_dot s = None -> contains "." s = false.
Proof.
  induction s as [|c r IH]; [reflexivity|]. simpl.
  destruct (rpartition_dot r) as [[p q]|]; [discriminate|].
  destruct (Ascii.eqb c ".") eqn:E; [discriminate|].
  intros _. simpl. auto.
Qed.

Lemma rpartition_dot_Some s p q :
  rpartition_dot s = Some (p, q) ->
  s = p ++ "." ++ q /\ contains "." q = false.
Proof.
  revert p q. induction s as [|c r IH]; intros p q; [discriminate|].
  simpl. destruct (rpartition_dot r) as [[p' q']|] eqn:Hr.
  - intros [= <- <-]. destruct (IH p' q' eq_refl) as [-> Hq].
    split; [reflexivity|exact Hq].
  - destruct (Ascii.eqb_spec c "."); [|discriminate].
    intros [= <- <-]. subst c. split; [reflexivity|].
    now apply rpartition_dot_None.
Qed.

Lemma last_component_no_dot target :
  contains "." (last_item (rsplit_dot_1 target)) = false.
Proof.
  unfold rsplit_dot_1, last_item.
  destruct (rpartition_dot target) as [[p q]|] eqn:H; simpl.
  - now destruct (rpartition_dot_Some _ _ _ H).
  - now apply rpartition_dot_None.
Qed.

(** X1. The text after the last dot, which [resolve] puts in the content
    node of a weakly titled reference, holds no dot; the name is that text
    when it has no dot, and otherwise ends in a dot followed by it. *)
Theorem last_component_spec (target : string) :
  let short := last_item (rsplit_dot_1 target) in
  contains "." short = false /\
  (contains "." target = false /\ short = target \/
   exists prefix, target = prefix ++ "." ++ short).
Proof.
  unfold rsplit_dot_1, last_item.
  destruct (rpartition_dot target) as [[p q]|] eqn:H; simpl.
  - destruct (rpartition_dot_Some _ _ _ H) as [-> Hq]. eauto.
  - apply rpartition_dot_None in H. auto.
Qed.

(** ** The resolver, off the main paths *)

Section ResolverEdges.

Context {Builder BuildEnvironment : Type}.
Variable builder_env : Builder -> BuildEnvironment.
Variable current_docname : Builder -> string.
Variable get_domain :
  BuildEnvironment -> string -> result (Domain Builder BuildEnvironment).

Local Abbreviation resolve' :=
  (resolve builder_env current_docname get_domain).
Local Abbreviation xref_answer' :=
  (xref_answer builder_env current_docname).

(** X2. A node from the domain that holds no reference, or no literal,
    trips the assertions of [resolve]: it raises [AssertionError] and gives
    no label. *)
Theorem resolve_asserts_reference_and_literal
    (self : DomainResolver Builder) text href weak d n :
  get_domain (builder_env (builder self)) "a4" = Ok d ->
  xref_answer' d self text href weak = Ok (Some n) ->
  next_node is_reference n = None \/ next_node is_literal n = None ->
  resolve' text href weak self = (Raise AssertionError, self).
Proof.
  intros Hd Hans H. rewrite resolve_eq, Hd, Hans.
  destruct (next_node is_reference n) as [r|]; [|reflexivity].
  destruct H as [H | ->]; [discriminate|reflexivity].
Qed.

(** X3. A reference with neither [refuri] nor [refid] makes [resolve]
    raise [KeyError] for [refid]: the url is never made up. *)
Theorem resolve_reference_without_target
    (self : DomainResolver Builder) text href weak d n r l :
  get_domain (builder_env (builder self)) "a4" = Ok d ->
  xref_answer' d self text href weak = Ok (Some n) ->
  next_node is_reference n = Some r ->
  next_node is_literal n = Some l ->
  node_attributes r !! "refuri" = None ->
  node_attributes r !! "refid" = None ->
  resolve' text href weak self = (Raise (KeyError "refid"), self).
Proof.
  intros Hd Hans Hr Hl Hu Hi.
  rewrite resolve_eq, Hd, Hans, Hr, Hl, Hu, Hi. reflexivity.
Qed.

(** X4. Only [NoUri] is taken for an unresolved target: any other
    exception of the domain leaves [resolve] as it was raised, and so does
    the failure to find the domain. *)
Theorem resolve_propagates_other_exceptions
    (self : DomainResolver Builder) text href weak e :
  e <> NoUri ->
  get_domain (builder_env (builder self)) "a4" = Raise e \/
  (exists d, get_domain (builder_env (builder self)) "a4" = Ok d /\
             xref_answer' d self text href weak = Raise e) ->
  resolve' text href weak self = (Raise e, self).
Proof.
  intros Hne H. rewrite resolve_eq.
  destruct H as [-> | (d & -> & ->)]; [reflexivity|].
  destruct e; try reflexivity. contradiction.
Qed.

(** X5. Under a weak title, when the domain keeps the content node it is
    given, the label of a resolved reference is made of the last component
    of the href, not of the display text: it is that component unescaped,
    the component itself when no null character is in it, and holds no
    dot. *)
Theorem resolve_weak_title_label
    (self : DomainResolver Builder) text h d n :
  get_domain (builder_env (builder self)) "a4" = Ok d ->
  xref_answer' d self text (Some h) true = Ok (Some n) ->
  next_node is_literal n = Some (new_literal (last_item (rsplit_dot_1 h))) ->
  forall label url s',
    resolve' text (Some h) true self = (Ok (label, url), s') ->
    label = unescape (last_item (rsplit_dot_1 h)) /\
    contains "." label = false /\
    (contains NUL (last_item (rsplit_dot_1 h)) = false ->
     label = last_item (rsplit_dot_1 h)).
Proof.
  intros Hd Hans Hl label url s'. rewrite resolve_eq, Hd, Hans, Hl.
  rewrite astext_new_literal.
  destruct (next_node is_reference n) as [r|]; [|discriminate].
  intros H.
  assert (label = unescape (last_item (rsplit_dot_1 h))) as ->.
  { destruct (node_attributes r !! "refuri");
      [|destruct (node_attributes r !! "refid")]; congruence. }
  split; [reflexivity|]. split.
  - apply unescape_keeps_out, last_component_no_dot.
  - intros Hnul. now apply unescape_id.
Qed.

End ResolverEdges.

Lemma resolve_asserts_reference_and_literal_witness :
  Fixtures.resolve_with MoreFixtures.bare_domain "expr" None false
    Fixtures.resolver = (Raise AssertionError, Fixtures.resolver).
Proof.
  apply (resolve_asserts_reference_and_literal Fixtures.unit_env
           Fixtures.unit_docname (Fixtures.get MoreFixtures.bare_domain)
           Fixtures.resolver "expr" None false MoreFixtures.bare_domain
           (new_literal "expr") eq_refl eq_refl).
  left. reflexivity.
Defined.

Lemma resolve_reference_without_target_witness :
  Fixtures.resolve_with MoreFixtures.untargeted_domain "expr" None false
    Fixtures.resolver = (Raise (KeyError "refid"), Fixtures.resolver).
Proof.
  apply (resolve_reference_without_target Fixtures.unit_env
           Fixtures.unit_docname
           (Fixtures.get MoreFixtures.untargeted_domain)
           Fixtures.resolver "expr" None false
           MoreFixtures.untargeted_domain
           (Element reference ∅ [new_literal "expr"])
           (Element reference ∅ [new_literal "expr"])
           (new_literal "expr") eq_refl eq_refl eq_refl eq_refl);
    apply lookup_empty.
Defined.

Lemma resolve_propagates_other_exceptions_witness :
  Fixtures.resolve_with MoreFixtures.broken_domain "expr" (Some "G.expr")
    true Fixtures.resolver
  = (Raise (OtherException "ValueError" "bad inventory"), Fixtures.resolver).
Proof.
  apply (resolve_propagates_other_exceptions Fixtures.unit_env
           Fixtures.unit_docname (Fixtures.get MoreFixtures.broken_domain)
           Fixtures.resolver "expr" (Some "G.expr") true
           (OtherException "ValueError" "bad inventory")).
  - discriminate.
  - right. exists MoreFixtures.broken_domain. split; reflexivity.
Defined.

Lemma resolve_weak_title_label_witness :
  Fixtures.resolve_with Fixtures.wrapping_domain "some nodoc text"
    (Some "Lang.Sub.expr") true Fixtures.resolver
  = (Ok ("expr", Some "#Lang.Sub.expr"), Fixtures.resolver) /\
  "expr" = unescape (last_item (rsplit_dot_1 "Lang.Sub.expr")) /\
  contains "." "expr" = false /\
  (contains NUL (last_item (rsplit_dot_1 "Lang.Sub.expr")) = false ->
   "expr" = last_item (rsplit_dot_1 "Lang.Sub.expr")).
Proof.
  assert (E : Fixtures.resolve_with Fixtures.wrapping_domain
                "some nodoc text" (Some "Lang.Sub.expr") true
                Fixtures.resolver
              = (Ok ("expr", Some "#Lang.Sub.expr"), Fixtures.resolver)).
  { vm_compute. reflexivity. }
  split; [exact E|].
  exact (resolve_weak_title_label Fixtures.unit_env Fixtures.unit_docname
           (Fixtures.get Fixtures.wrapping_domain) Fixtures.resolver
           "some nodoc text" "Lang.Sub.expr" Fixtures.wrapping_domain
           (Element reference {[ "refid" := "Lang.Sub.expr" ]}
              [new_literal "expr"])
           eq_refl eq_refl eq_refl
           "expr" (Some "#Lang.Sub.expr") Fixtures.resolver E).
Defined.

(** ** What a walk writes *)

Section VisitWrites.

Context {Builder Description Item : Type}.
Variable Diagram_load :
  DiagramSettings -> DomainResolver Builder -> Description -> result Item.
Variable Diagram_render :
  DiagramSettings -> DomainResolver Builder -> Item -> result string.

Local Abbreviation visit_node_html' :=
  (visit_node_html Diagram_load Diagram_render).
Local Abbreviation visit_all' := (visit_all Diagram_load Diagram_render).
Local Abbreviation emitted_html' :=
  (emitted_html Diagram_load Diagram_render).
Local Abbreviation emitted_warnings' :=
  (emitted_warnings Diagram_load Diagram_render).
Local Abbreviation renders' := (renders Diagram_load Diagram_render).

Lemma visit_node_html_writes (node : RailroadDiagramNode Description)
    (t : HTMLTranslator Builder) :
  visit_node_html' node t =
  (Ok tt,
   Build_HTMLTranslator (translator_builder t)
     (body t ++ emitted_html' (translator_builder t) node)
     (logged t ++ emitted_warnings' (translator_builder t) node)).
Proof.
  rewrite visit_node_html_eq.
  unfold emitted_html, emitted_warnings, render_outcome.
  destruct (Diagram_load _ _ _) as [data|e];
    [destruct (Diagram_render _ _ _) as [svg|e]|];
    rewrite ?app_nil_r; reflexivity.
Qed.

Lemma visit_all_writes (nodes : list (RailroadDiagramNode Description))
    (t : HTMLTranslator Builder) :
  visit_all' nodes t =
  (Ok tt,
   Build_HTMLTranslator (translator_builder t)
     (body t ++ flat_map (emitted_html' (translator_builder t)) nodes)
     (logged t ++ flat_map (emitted_warnings' (translator_builder t)) nodes)).
Proof.
  revert t. induction nodes as [|node rest IH]; intros t.
  - simpl. rewrite !app_nil_r. now destruct t.
  - cbn [visit_all]. unfold bind at 1. rewrite visit_node_html_writes.
    unfold bind, depart_node, ret. rewrite IH. cbn. 
    rewrite <- !app_assoc. reflexivity.
Qed.

Lemma emitted_html_not_rendered b (node : RailroadDiagramNode Description) :
  renders' b node = false -> emitted_html' b node = [].
Proof.
  unfold renders, emitted_html.
  destruct (render_outcome _ _ _ _); [discriminate|reflexivity].
Qed.

(** X6. When the diagram of a node loads and renders, the visit appends
    the opening of the container paragraph, the SVG text and the closing
    tag to the body, in this order, and logs nothing. *)
Theorem visit_node_html_success (node : RailroadDiagramNode Description)
    (t : HTMLTranslator Builder) data svg :
  let resolver :=
    Build_DomainResolver (translator_builder t) (node_grammar node) in
  Diagram_load (options node) resolver (diagram node) = Ok data ->
  Diagram_render (options node) resolver data = Ok svg ->
  visit_node_html' node t =
  (Ok tt,
   Build_HTMLTranslator (translator_builder t)
     (body t ++ [container_open; svg; "</p>"]) (logged t)).
Proof.
  intros resolver Hload Hrender. rewrite visit_node_html_eq.
  fold resolver. rewrite Hload, Hrender. reflexivity.
Qed.

(** X7. A walk over diagram nodes leaves in the body, after what was
    there, the three pieces of every diagram that renders, in document
    order, and in the log one warning for every diagram that does not; it
    returns normally and keeps the builder. *)
Theorem visit_all_body_and_log
    (nodes : list (RailroadDiagramNode Description))
    (t : HTMLTranslator Builder) :
  fst (visit_all' nodes t) = Ok tt /\
  translator_builder (snd (visit_all' nodes t)) = translator_builder t /\
  body (snd (visit_all' nodes t)) =
    (body t ++ flat_map (emitted_html' (translator_builder t)) nodes)%list /\
  logged (snd (visit_all' nodes t)) =
    (logged t ++ flat_map (emitted_warnings' (translator_builder t)) nodes)
    %list /\
  length (body (snd (visit_all' nodes t))) =
    length (body t) +
    3 * length (List.filter (renders' (translator_builder t)) nodes) /\
  length (logged (snd (visit_all' nodes t))) + 
    length (List.filter (renders' (translator_builder t)) nodes) =
    length (logged t) + length nodes.
Proof.
  rewrite visit_all_writes. cbn [fst snd translator_builder body logged].
  repeat split.
  - rewrite length_app. f_equal.
    induction nodes as [|node rest IH]; [reflexivity|].
    cbn [flat_map List.filter]. rewrite length_app, IH.
    unfold emitted_html at 1, renders at 2.
    destruct (render_outcome _ _ _ _); cbn [is_Ok length]; lia.
  - rewrite length_app.
    enough (length (flat_map (emitted_warnings' (translator_builder t)) nodes)
            + length (List.filter (renders' (translator_builder t)) nodes)
            = length nodes) by lia.
    induction nodes as [|node rest IH]; [reflexivity|].
    cbn [flat_map List.filter]. rewrite length_app.
    unfold emitted_warnings at 1, renders at 1.
    destruct (render_outcome _ _ _ _); simpl; lia.
Qed.

(** X8. The diagrams that fail leave no trace in the body: the body after
    a walk is the body after a walk over the diagrams that render. *)
Theorem visit_all_skips_failures
    (nodes : list (RailroadDiagramNode Description))
    (t : HTMLTranslator Builder) :
  body (snd (visit_all' nodes t)) =
  body (snd (visit_all' (List.filter (renders' (translator_builder t)) nodes) t)).
Proof.
  rewrite !visit_all_writes. cbn [snd body]. f_equal.
  induction nodes as [|node rest IH]; [reflexivity|].
  cbn [flat_map List.filter].
  destruct (renders' (translator_builder t) node) eqn:E.
  - cbn [flat_map]. now rewrite IH.
  - rewrite (emitted_html_not_rendered _ _ E). exact IH.
Qed.

(** Walking two runs of nodes one after the other is walking their
    concatenation. *)
Lemma visit_all_app (xs ys : list (RailroadDiagramNode Description))
    (t : HTMLTranslator Builder) :
  visit_all' (xs ++ ys) t = visit_all' ys (snd (visit_all' xs t)).
Proof.
  rewrite !visit_all_writes. cbn [snd translator_builder body logged].
  rewrite !flat_map_app, !app_assoc. reflexivity.
Qed.

End VisitWrites.

Lemma visit_node_html_success_witness :
  visit_node_html Fixtures.load Fixtures.render Fixtures.good_node
    (Build_HTMLTranslator tt ["<h1>Rules</h1>"] [])
  = (Ok tt, Build_HTMLTranslator tt
              ["<h1>Rules</h1>"; container_open; "<svg>A</svg>"; "</p>"] []).
Proof.
  apply (visit_node_html_success Fixtures.load Fixtures.render
           Fixtures.good_node
           (Build_HTMLTranslator tt ["<h1>Rules</h1>"] [])
           "A" "<svg>A</svg>" eq_refl eq_refl).
Defined.

(** ** The directives, every class and every outcome *)

Section DirectiveOutcomes.

Context {Description Model Rule Content : Type}.
Variable safe_load : string -> result Description.
Variable from_text : string -> string * Z -> result Model.
Variable lookup : Model -> string -> option Rule.
Variable rule_content : Rule -> option Content.
Variable visit : Content -> result Description.

Local Abbreviation get_content' :=
  (get_content safe_load from_text lookup rule_content visit).
Local Abbreviation run' :=
  (run safe_load from_text lookup rule_content visit).

Lemma yaml_get_content_eq (self : Directive) (calls : list call) :
  directive_cls self = RailroadDiagram ->
  get_content' self calls =
  (safe_load (join newline (content self)),
   (calls ++ [call_safe_load (join newline (content self))])%list).
Proof.
  intros Hcls. unfold get_content. rewrite Hcls. reflexivity.
Qed.

Lemma rule_directive_exists (self : Directive) :
  directive_cls self <> RailroadDiagram ->
  exists name text, rule_directive self name text.
Proof.
  intros H. unfold rule_directive.
  destruct (directive_cls self); [contradiction| |]; eauto 10.
Qed.

(** What [get_content] adds to the calls holds no call to the reporter. *)
Lemma get_content_calls (self : Directive) (calls : list call) :
  exists rest,
    snd (get_content' self calls) = (calls ++ rest)%list /\
    List.filter is_reporter_call rest = [].
Proof.
  destruct (directive_cls self) eqn:Hcls.
  - rewrite (yaml_get_content_eq _ _ Hcls). eauto.
  - destruct (rule_directive_exists self) as (name & text & Hdir);
      [congruence|].
    rewrite (rule_get_content_eq safe_load from_text lookup rule_content
               visit self calls name text Hdir).
    destruct (from_text _ _) as [model|e]; [|eauto].
    destruct (lookup model name) as [rule|];
      [destruct (rule_content rule) as [c|]|]; eauto.
  - destruct (rule_directive_exists self) as (name & text & Hdir);
      [congruence|].
    rewrite (rule_get_content_eq safe_load from_text lookup rule_content
               visit self calls name text Hdir).
    destruct (from_text _ _) as [model|e]; [|eauto].
    destruct (lookup model name) as [rule|];
      [destruct (rule_content rule) as [c|]|]; eauto.
Qed.

(** X9. Whatever the class of the directive and whatever its
    collaborators do, [run] returns normally with exactly one node: an
    error message of the reporter when [get_content] raised, after one call
    to the reporter, and otherwise a diagram node with the settings of the
    directive and the grammar of the context ([__default__] when the
    context names none), after no call to the reporter. *)
Theorem run_returns_one_node (self : Directive) (calls : list call) :
  exists n rest,
    run' self calls = (Ok [n], (calls ++ rest)%list) /\
    is_system_message n = negb (is_Ok (fst (get_content' self calls))) /\
    length (List.filter is_reporter_call rest) =
      (if is_system_message n then 1 else 0) /\
    (forall n', n = railroad_diagram n' ->
       fst (get_content' self calls) = Ok (diagram n') /\
       options n' = settings self /\
       node_grammar n' =
         default "__default__" (ref_context self !! "a4:grammar")).
Proof.
  destruct (get_content_calls self calls) as (rest & Hcalls & Hrest).
  destruct (get_content' self calls) as [[d|e] calls'] eqn:Hget;
    cbn [snd] in Hcalls; subst calls'.
  - rewrite (run_wraps_content _ _ _ _ _ _ _ _ _ Hget).
    eexists _, rest. split; [reflexivity|]. split; [reflexivity|].
    split; [now rewrite Hrest|].
    intros n' [= <-]. auto.
  - rewrite (run_reports_exception _ _ _ _ _ _ _ _ _ Hget).
    eexists _, (rest ++ [_])%list. rewrite app_assoc.
    split; [reflexivity|]. split; [reflexivity|]. split.
    + rewrite List.filter_app, Hrest. reflexivity.
    + discriminate.
Qed.

(** X10. The plain diagram directive reads its body, lines joined by
    newlines, as YAML and nothing else: what YAML gives becomes the
    description of the diagram node, an error of YAML becomes the reporter's
    error message, and the grammar model is never asked. *)
Theorem yaml_directive_run (self : Directive) (calls : list call) :
  directive_cls self = RailroadDiagram ->
  let text := join newline (content self) in
  run' self calls =
  match safe_load text with
  | Ok d =>
      (Ok [railroad_diagram
             (new_RailroadDiagramNode Description d (settings self)
                (default "__default__" (ref_context self !! "a4:grammar")))],
       (calls ++ [call_safe_load text])%list)
  | Raise e =>
      (Ok [system_message ERROR_LEVEL (exn_str e) (lineno self)],
       (calls ++ [call_safe_load text;
                  call_reporter_error (exn_str e) (lineno self)])%list)
  end /\
  exists rest,
    snd (run' self calls) = (calls ++ rest)%list /\
    List.filter is_model_call rest = [].
Proof.
  intros Hcls text.
  pose proof (yaml_get_content_eq self calls Hcls) as Hget.
  fold text in Hget.
  destruct (safe_load text) as [d|e].
  - rewrite (run_wraps_content _ _ _ _ _ _ _ _ _ Hget). split; eauto.
  - rewrite (run_reports_exception _ _ _ _ _ _ _ _ _ Hget).
    rewrite <- app_assoc. split; eauto.
Qed.

(** X11. In a rule directive a failure of the grammar model is reported
    with its own message before any rule is looked up, and a failure of the
    renderer on the rule found is reported in the same way. *)
Theorem rule_directive_collaborator_failure (self : Directive)
    (calls : list call) name text e :
  rule_directive self name text ->
  let asked :=
    call_from_text text (reporter_source self) (content_offset self) in
  let report := call_reporter_error (exn_str e) (lineno self) in
  (from_text text (reporter_source self, content_offset self) = Raise e ->
   run' self calls =
   (Ok [system_message ERROR_LEVEL (exn_str e) (lineno self)],
    (calls ++ [asked; report])%list)) /\
  (forall model rule c,
     from_text text (reporter_source self, content_offset self) = Ok model ->
     lookup model name = Some rule ->
     rule_content rule = Some c ->
     visit c = Raise e ->
     run' self calls =
     (Ok [system_message ERROR_LEVEL (exn_str e) (lineno self)],
      (calls ++ [asked; call_lookup name; call_visit; report])%list)).
Proof.
  intros Hdir asked report.
  pose proof (rule_get_content_eq safe_load from_text lookup rule_content
                visit self calls name text Hdir) as Hget.
  cbn zeta in Hget. fold asked in Hget. split.
  - intros Hmodel. rewrite Hmodel in Hget.
    rewrite (run_reports_exception _ _ _ _ _ _ _ _ _ Hget).
    rewrite <- app_assoc. reflexivity.
  - intros model rule c Hmodel Hrule Hc Hvisit.
    rewrite Hmodel, Hrule, Hc, Hvisit in Hget.
    rewrite (run_reports_exception _ _ _ _ _ _ _ _ _ Hget).
    rewrite <- app_assoc. reflexivity.
Qed.

End DirectiveOutcomes.

Lemma yaml_directive_run_witness :
  run MoreFixtures.one_word (Fixtures.parse "ROOT")
    Fixtures.lookup_rule Fixtures.content_of Fixtures.visit_rule
    (MoreFixtures.yaml_directive ["stack"]) []
  = (Ok [railroad_diagram
           (new_RailroadDiagramNode string "stack" DiagramSettings_default
              "Lang")],
     [call_safe_load "stack"]).
Proof.
  exact (proj1 (yaml_directive_run MoreFixtures.one_word
                  (Fixtures.parse "ROOT") Fixtures.lookup_rule
                  Fixtures.content_of Fixtures.visit_rule
                  (MoreFixtures.yaml_directive ["stack"]) [] eq_refl)).
Defined.

Lemma rule_directive_collaborator_failure_witness :
  rule_directive (MoreFixtures.parser_directive ["expr"]) "root"
    "grammar X; root : expr ;" /\
  run Fixtures.no_yaml MoreFixtures.unreadable Fixtures.lookup_rule
    Fixtures.content_of Fixtures.visit_rule
    (MoreFixtures.parser_directive ["expr"]) []
  = (Ok [system_message 3 "cannot read" 9],
     [call_from_text "grammar X; root : expr ;" "index.rst" 10;
      call_reporter_error "cannot read" 9]).
Proof.
  assert (Hdir : rule_directive (MoreFixtures.parser_directive ["expr"])
                   "root" "grammar X; root : expr ;").
  { right. repeat split; reflexivity. }
  split; [exact Hdir|].
  exact (proj1 (rule_directive_collaborator_failure Fixtures.no_yaml
                  MoreFixtures.unreadable Fixtures.lookup_rule
                  Fixtures.content_of Fixtures.visit_rule
                  (MoreFixtures.parser_directive ["expr"]) [] "root"
                  "grammar X; root : expr ;"
                  (OtherException "OSError" "cannot read") Hdir)
           eq_refl).
Defined.

(** ** The enumerations *)

Section EnumFacts.

Context {A : Type} `{PyEnum A}.

Lemma find_by_value_member (l : list A) (m : A) :
  List.NoDup (map enum_value l) -> In m l ->
  List.find (fun x => String.eqb (enum_value x) (enum_value m)) l = Some m.
Proof.
  induction l as [|x l IH]; [contradiction|].
  cbn [map List.find]. intros Hnd Hin.
  apply List.NoDup_cons_iff in Hnd as [Hx Hnd].
  destruct (String.eqb_spec (enum_value x) (enum_value m)) as [E|E].
  - destruct Hin as [-> | Hin]; [reflexivity|].
    exfalso. apply Hx. rewrite E. now apply in_map.
  - destruct Hin as [-> | Hin]; [contradiction|]. now apply IH.
Qed.

Lemma find_by_value_absent (l : list A) (v : string) :
  ~ In v (map enum_value l) ->
  List.find (fun x => String.eqb (enum_value x) v) l = None.
Proof.
  induction l as [|x l IH]; [reflexivity|].
  cbn [map List.find In]. intros Hv.
  destruct (String.eqb_spec (enum_value x) v) as [E|E]; [tauto|].
  apply IH. tauto.
Qed.

(** An enumeration without two members of one value, all of them listed,
    each valued by its name, goes to values and back. *)
Lemma Enum_round_trip :
  List.NoDup (map enum_value enum_members) ->
  (forall m : A, In m enum_members) ->
  (forall m : A, enum_value m = enum_name m) ->
  value_round_trip A.
Proof.
  intros Hnd Hall Hname. unfold value_round_trip, Enum_call.
  split; [|split; [|split]].
  - intros m. now rewrite find_by_value_member.
  - intros v m.
    destruct (List.find _ enum_members) as [m'|] eqn:Hf; [|discriminate].
    intros [= <-]. apply List.find_some in Hf as [_ Hf].
    now apply String.eqb_eq.
  - exact Hname.
  - intros v Hv. rewrite find_by_value_absent by exact Hv. eauto.
Qed.

End EnumFacts.

Ltac enum_round_trip :=
  apply Enum_round_trip;
  [ repeat (apply List.NoDup_cons; [simpl; intuition discriminate|]);
    apply List.NoDup_nil
  | intros []; simpl; tauto
  | intros []; reflexivity ].

(** X12. In each of the five enumerations of the settings the call of
    the class on a member's value gives the member back, a call that
    succeeds gives a member of the value asked for, a value is the name of
    its member, and any other string raises [ValueError]. *)
Theorem settings_enums_round_trip :
  value_round_trip InternalAlignment /\
  value_round_trip EndClass /\
  value_round_trip GrammarType.t /\
  value_round_trip OrderSettings.t /\
  value_round_trip GroupingSettings.t.
Proof.
  repeat split_and; enum_round_trip.
Qed.
